(** * A shallow embedding of [streamlit_app.py]

    The application is a thin orchestration layer over an index/retrieval
    library, a language-model client and a UI framework.  The embedding keeps
    the program's own logic executable and takes every external collaborator
    as an oracle of the class [Externals]: each outbound call threads an
    abstract [World] and either returns a value or raises.

    Python strings are represented by their UTF-8 bytes ([string]).  The only
    character class the program inspects, [[a-zA-Z]], consists of bytes below
    128, which in UTF-8 occur only as the encoding of those letters, so runs
    of letters are the same in both views. *)

From Stdlib Require Import Ascii String List Arith Lia.
From Equations Require Import Equations.
From stdpp Require Import gmap strings list pretty.

(** ** Text helpers *)

Module Text.

(** The newline character of the Python literals. *)
Definition nl : string := String (ascii_of_nat 10) EmptyString.

(** [sep.join(parts)]. *)
Fixpoint join (sep : string) (parts : list string) : string :=
  match parts with
  | [] => EmptyString
  | [p] => p
  | p :: ps => p +:+ sep +:+ join sep ps
  end.

(** [s.startswith(p)]. *)
Fixpoint startswith (s p : string) {struct p} : bool :=
  match p, s with
  | EmptyString, _ => true
  | String a p', String b s' => if Ascii.eqb a b then startswith s' p' else false
  | String _ _, EmptyString => false
  end.

(** [sub in s] on Python strings: some suffix of [s] starts with [sub]. *)
Fixpoint contains (s sub : string) : bool :=
  startswith s sub ||
  match s with
  | EmptyString => false
  | String _ s' => contains s' sub
  end.

(** [s.endswith(suffix)]. *)
Definition endswith (s suffix : string) : bool :=
  let n := String.length s in
  let k := String.length suffix in
  (k <=? n) && String.eqb (substring (n - k) k s) suffix.

(** [len(s)] counts code points: the bytes that are not UTF-8
    continuation bytes (10xxxxxx). *)
Definition is_continuation (c : ascii) : bool :=
  let n := nat_of_ascii c in (128 <=? n) && (n <? 192).

Fixpoint len (s : string) : nat :=
  match s with
  | EmptyString => 0
  | String c s' => (if is_continuation c then 0 else 1) + len s'
  end.

End Text.

(** ** The regular expression [[a-zA-Z]{3,}] and [re.findall] *)

Module Re.

(** The character class [[a-zA-Z]]. *)
Definition is_ascii_letter (c : ascii) : bool :=
  (Ascii.leb "a" c && Ascii.leb c "z") || (Ascii.leb "A" c && Ascii.leb c "Z").

(** Greedy [[a-zA-Z]*] at the start of [s]: the consumed letters and the
    rest of the subject. *)
Fixpoint letters_prefix (s : list ascii) : list ascii * list ascii :=
  match s with
  | c :: s' =>
      if is_ascii_letter c
      then let (m, r) := letters_prefix s' in (c :: m, r)
      else ([], s)
  | [] => ([], [])
  end.

(** One match attempt of [[a-zA-Z]{3,}] anchored at the start of [s].  The
    quantifier is greedy and nothing follows it in the pattern, so the
    longest run is the match whenever it has three letters. *)
Definition match_here (s : list ascii) : option (list ascii * list ascii) :=
  let (m, r) := letters_prefix s in
  if 3 <=? length m then Some (m, r) else None.

(** A value together with the fact that it is the value of [x]; the scan
    needs the equation to see that it resumes on a shorter subject. *)
Definition keep_eq {A : Type} (x : A) : { y : A | x = y } := exist _ x eq_refl.

(** The scan of [re.findall]: try the pattern at the current position; on
    success emit the match and resume right after it, otherwise move one
    character forward. *)
Equations? findall (s : list ascii) : list (list ascii) by wf (length s) lt :=
  findall [] := [];
  findall (c :: s') with keep_eq (match_here (c :: s')) := {
    | exist _ (Some (m, r)) _ => m :: findall r
    | exist _ None _ => findall s' }.
Proof.
  - assert (Hlen : ∀ t a b, letters_prefix t = (a, b) → length t = length a + length b).
    { induction t as [|x t IH]; simpl; intros a b Hab; [by inversion Hab|].
      destruct (is_ascii_letter x); [|by inversion Hab].
      destruct (letters_prefix t) as [a' b']. inversion Hab; subst.
      simpl. f_equal. by apply IH. }
    unfold match_here in e.
    destruct (letters_prefix (c :: s')) as [m' r'] eqn:Hp.
    destruct (3 <=? length m') eqn:Hm; [|discriminate].
    inversion e; subst. apply Hlen in Hp. apply Nat.leb_le in Hm. lia.
  - simpl. lia.
Qed.

(** [re.findall(r'[a-zA-Z]{3,}', text)]. *)
Definition re_findall (text : string) : list string :=
  string_of_list_ascii <$> findall (list_ascii_of_string text).

(** [len(re.findall(r'[a-zA-Z]', text))]. *)
Definition count_letters (text : string) : nat :=
  length (filter (λ c, is_ascii_letter c = true) (list_ascii_of_string text)).

(** *** Maximal runs, declaratively *)

Definition all_letters (r : list ascii) : bool := forallb is_ascii_letter r.

(** [r] occurs in [text] as a maximal run of letters: it is a non-empty
    block of letters that is neither preceded nor followed by a letter. *)
Definition maximal_run (text r : list ascii) : Prop :=
  ∃ pre post,
    text = pre ++ r ++ post ∧ r ≠ [] ∧ all_letters r = true ∧
    (∀ c, last pre = Some c → is_ascii_letter c = false) ∧
    (∀ c, head post = Some c → is_ascii_letter c = false).

End Re.

(** ** Exceptions and results of outbound calls *)

(** The classes of [Exception] the program tells apart.  Everything an
    outbound call raises is an instance of [Exception]; the script-control
    signals of the UI framework are not (see [control]). *)
Inductive exn_class := ImportError | AttributeError | TypeError | OtherError.

Record exn := Exn { exn_class_of : exn_class; exn_msg : string }.

(** [str(e)] and the [{e}] of an f-string. *)
Definition str_exn (e : exn) : string := exn_msg e.

#[global] Instance exn_class_eq_dec : EqDecision exn_class.
Proof. solve_decision. Defined.

Inductive result (A : Type) := Ok (a : A) | Err (e : exn).
Arguments Ok {A} a.
Arguments Err {A} e.

(** The [score] attribute of a result object of the retriever, as the code
    looks at it: [hasattr(node, 'score')] may be false; the attribute may
    hold [None], the default of the library's class; or it holds a number. *)
Inductive score_attr (Score : Type) :=
| NoScoreAttr
| ScoreIsNone
| ScoreIs (sc : Score).
Arguments NoScoreAttr {Score}.
Arguments ScoreIsNone {Score}.
Arguments ScoreIs {Score} sc.

(** The result object of the retriever, whose class is declared by the
    retrieval library.  It carries the chunk's metadata dictionary (document
    name under ['file_name'], optional page label under ['page_label']) and
    the [score] attribute. *)
Record NodeWithScore (Score : Type) := Node {
  metadata : gmap string string;
  score : score_attr Score
}.
Arguments Node {Score} metadata score.
Arguments metadata {Score} n.
Arguments score {Score} n.

(** ** External collaborators *)

(** The operating system, the retrieval library and the model client.  A call
    that can have an effect or fail maps the state of the outside world to a
    result and a new state. *)
Class Externals := {
  World : Type;
  Document : Type;
  Index : Type;
  QueryEngine : Type;
  Retriever : Type;
  Memory : Type;
  Response : Type;
  CompletionResponse : Type;
  Score : Type;
  (* os *)
  os_getenv : string → World → option string;
  os_path_exists : string → World → bool;
  os_listdir : string → World → result (list string) * World;
  (* Settings.llm = OpenAI(...) *)
  openai_llm : World → result unit * World;
  (* SimpleDirectoryReader(input_dir=folder).load_data() *)
  load_data : string → World → result (list Document) * World;
  (* VectorStoreIndex.from_documents(documents) *)
  from_documents : list Document → World → result Index * World;
  (* index.as_query_engine(similarity_top_k=k, response_mode="compact",
     text_qa_template=PromptTemplate(template)) *)
  as_query_engine : Index → nat → string → World → result QueryEngine * World;
  (* QueryEngineTool(query_engine=..., metadata=ToolMetadata(...)) *)
  query_engine_tool : QueryEngine → World → result unit * World;
  (* ChatMemoryBuffer.from_defaults(token_limit=n) *)
  memory_from_defaults : nat → World → result unit * World;
  (* from llama_index.core.chat_engine import SimpleChatEngine *)
  import_simple_chat_engine : World → result unit * World;
  (* engine.query(question) *)
  query : QueryEngine → string → World → result Response * World;
  str_response : Response → string;
  (* Settings.llm.complete(prompt) *)
  llm_complete : string → World → result CompletionResponse * World;
  str_completion : CompletionResponse → string;
  (* index.as_retriever(similarity_top_k=k) and retriever.retrieve(question) *)
  as_retriever : Index → nat → World → result Retriever * World;
  retrieve : Retriever → string → World → result (list (NodeWithScore Score)) * World;
  (* f"{score:.3f}" for a number *)
  format_3f : Score → string;
  (* f"{letters / length:.1%}" *)
  format_ratio : nat → nat → string;
  (* traceback.format_exc() inside a handler *)
  format_exc : exn → string;
  (* agent.memory and the probes hasattr(memory, ...) *)
  engine_memory : QueryEngine → result Memory;
  has_reset : Memory → bool;
  has_clear : Memory → bool;
  has_chat_history : Memory → bool;
  memory_reset : Memory → World → result unit * World;
  memory_clear : Memory → World → result unit * World;
  memory_set_chat_history : Memory → World → result unit * World
}.

Section Program.
Context {E : Externals}.

(** ** Observable behaviour: UI output and outbound calls *)

Inductive ui_kind :=
| StError | StWarning | StSuccess | StInfo | StWrite | StMarkdown | StSpinner
| StTitle | StHeader | StPageConfig | StChatMessage | StExpander
| SidebarWarning | SidebarSuccess.

Inductive call :=
| ListDir (folder : string)
| OpenAI
| LoadData (folder : string)
| FromDocuments (documents : list Document)
| AsQueryEngine (receiver : option Index) (top_k : nat) (template : string)
| QueryEngineTool (engine : QueryEngine)
| MemoryFromDefaults (token_limit : nat)
| ImportSimpleChatEngine
| Query (engine : QueryEngine) (question : string)
| Complete (prompt : string)
| AsRetriever (receiver : option Index) (top_k : nat)
| Retrieve (retriever : Retriever) (question : string)
| MemoryReset (memory : Memory)
| MemoryClear (memory : Memory)
| MemorySetChatHistory (memory : Memory).

Inductive event :=
| Ui (kind : ui_kind) (msg : string)
| Call (c : call).

(** The outbound calls among the events of a log. *)
Definition calls (l : list event) : list call :=
  omap (λ ev, match ev with Call c => Some c | Ui _ _ => None end) l.

(** An attempt to build a query engine from an index that is [None]. *)
Definition engine_lookup_on_none (c : call) : bool :=
  match c with
  | AsQueryEngine None _ _ => true
  | _ => false
  end.

(** ** The monad of the script: state, world, exceptions and a log *)

(** [st.stop()] and [st.rerun()] end the script run; they are not instances
    of [Exception], so no [except Exception] clause catches them. *)
Inductive control := Stop | Rerun.

Inductive outcome (A : Type) := Ret (a : A) | Raise (e : exn) | Ctl (c : control).
#[global] Arguments Ret {A} a.
#[global] Arguments Raise {A} e.
#[global] Arguments Ctl {A} c.

Record run (S A : Type) := Run {
  out : outcome A;     (* how the computation ended *)
  obj : S;             (* the mutable object it worked on *)
  world : World;       (* the outside world afterwards *)
  log : list event     (* what it emitted, oldest first *)
}.
#[global] Arguments Run {S A} out obj world log.
#[global] Arguments out {S A} r.
#[global] Arguments obj {S A} r.
#[global] Arguments world {S A} r.
#[global] Arguments log {S A} r.

Definition M (S A : Type) : Type := S → World → run S A.

#[global] Instance M_ret {S} : MRet (M S) := λ A a s w, Run (Ret a) s w [].

#[global] Instance M_bind {S} : MBind (M S) := λ A B k m s w,
  match m s w with
  | Run (Ret a) s1 w1 l1 =>
      match k a s1 w1 with
      | Run o s2 w2 l2 => Run o s2 w2 (l1 ++ l2)
      end
  | Run (Raise e) s1 w1 l1 => Run (Raise e) s1 w1 l1
  | Run (Ctl c) s1 w1 l1 => Run (Ctl c) s1 w1 l1
  end.

(** [try: body / except Exception as e: handler e].  Assignments made by the
    body before it raised persist. *)
Definition try_except {S A} (body : M S A) (handler : exn → M S A) : M S A :=
  λ s w,
  match body s w with
  | Run (Raise e) s1 w1 l1 =>
      match handler e s1 w1 with
      | Run o s2 w2 l2 => Run o s2 w2 (l1 ++ l2)
      end
  | r => r
  end.

(** [try: body / except cls: handler]: other exceptions propagate. *)
Definition try_except_class {S A} (cls : exn_class) (body : M S A) (handler : M S A) : M S A :=
  λ s w,
  match body s w with
  | Run (Raise e) s1 w1 l1 =>
      if decide (exn_class_of e = cls) then
        match handler s1 w1 with
        | Run o s2 w2 l2 => Run o s2 w2 (l1 ++ l2)
        end
      else Run (Raise e) s1 w1 l1
  | r => r
  end.

Definition get {S} : M S S := λ s w, Run (Ret s) s w [].
Definition put {S} (s : S) : M S unit := λ _ w, Run (Ret tt) s w [].
Definition raise {S A} (e : exn) : M S A := λ s w, Run (Raise e) s w [].
Definition signal {S A} (c : control) : M S A := λ s w, Run (Ctl c) s w [].
Definition emit {S} (ev : event) : M S unit := λ s w, Run (Ret tt) s w [ev].

(** Reading the outside world without changing it. *)
Definition read {S A} (f : World → A) : M S A := λ s w, Run (Ret (f w)) s w [].

(** An outbound call: logged, then performed. *)
Definition perform {S A} (c : call) (f : World → result A * World) : M S A :=
  λ s w,
  match f w with
  | (Ok a, w1) => Run (Ret a) s w1 [Call c]
  | (Err e, w1) => Run (Raise e) s w1 [Call c]
  end.

(** A value that is either there or raises, without touching the world. *)
Definition lift_result {S A} (r : result A) : M S A :=
  match r with
  | Ok a => mret a
  | Err e => raise e
  end.

(** [for x in xs: body x]. *)
Fixpoint for_each {S A} (xs : list A) (body : A → M S unit) : M S unit :=
  match xs with
  | [] => mret tt
  | x :: xs' => body x;; for_each xs' body
  end.

Definition st (kind : ui_kind) {S} (msg : string) : M S unit := emit (Ui kind msg).

(** ** The chatbot object *)

Record Bot := {
  pdf_folder : string;
  agent : option QueryEngine;
  index : option Index
}.

Definition set_agent (a : option QueryEngine) : M Bot unit :=
  self ← get; put {| pdf_folder := pdf_folder self; agent := a; index := index self |}.

Definition set_index (i : option Index) : M Bot unit :=
  self ← get; put {| pdf_folder := pdf_folder self; agent := agent self; index := i |}.

(** [StreamlitReActChatBot(pdf_folder)]: the constructor configures the
    global model client and leaves agent and index unset. *)
Definition new_bot {S} (folder : string) : M S Bot :=
  perform OpenAI openai_llm;;
  mret {| pdf_folder := folder; agent := None; index := None |}.

Definition japanese_template : string :=
  "重要: この回答は必ず日本語で行ってください。英語での回答は絶対に禁止です。" +:+ Text.nl +:+
  "CRITICAL: You MUST respond in Japanese only. English responses are absolutely forbidden." +:+ Text.nl +:+
  Text.nl +:+
  "コンテキスト情報は以下の通りです。" +:+ Text.nl +:+
  "---------------------" +:+ Text.nl +:+
  "{context_str}" +:+ Text.nl +:+
  "---------------------" +:+ Text.nl +:+
  Text.nl +:+
  "上記の情報を基に、質問に必ず日本語で詳しく答えてください。" +:+ Text.nl +:+
  "回答は日本語のみで行い、英語は一切使用しないでください。" +:+ Text.nl +:+
  "回答の最後に、参考にした文書名（ファイル名）を【参考文書】として必ず記載してください。" +:+ Text.nl +:+
  Text.nl +:+
  "質問: {query_str}" +:+ Text.nl +:+
  "日本語での回答: ".

Definition japanese_fallback_template : string :=
  "重要: 必ず日本語で回答してください。英語での回答は絶対に禁止です。" +:+ Text.nl +:+
  "IMPORTANT: You MUST respond in Japanese only. English is forbidden." +:+ Text.nl +:+
  Text.nl +:+
  "以下の文書情報を参考に、質問に日本語で答えてください。" +:+ Text.nl +:+
  "---------------------" +:+ Text.nl +:+
  "{context_str}" +:+ Text.nl +:+
  "---------------------" +:+ Text.nl +:+
  Text.nl +:+
  "質問: {query_str}" +:+ Text.nl +:+
  "必ず日本語で詳しく回答してください：".

(** [self.index.as_query_engine(...)]: the attribute lookup on the receiver
    fails when [self.index] is [None]. *)
Definition index_as_query_engine (top_k : nat) (template : string) : M Bot QueryEngine :=
  self ← get;
  match index self with
  | Some idx =>
      perform (AsQueryEngine (Some idx) top_k template) (as_query_engine idx top_k template)
  | None =>
      emit (Call (AsQueryEngine None top_k template));;
      raise (Exn AttributeError "'NoneType' object has no attribute 'as_query_engine'")
  end.

(** [self.index.as_retriever(similarity_top_k=k)]. *)
Definition index_as_retriever (top_k : nat) : M Bot Retriever :=
  self ← get;
  match index self with
  | Some idx => perform (AsRetriever (Some idx) top_k) (as_retriever idx top_k)
  | None =>
      emit (Call (AsRetriever None top_k));;
      raise (Exn AttributeError "'NoneType' object has no attribute 'as_retriever'")
  end.

Definition _create_react_agent : M Bot bool :=
  try_except
    (self ← get;
     match index self with
     | None =>
         st StError "❌ インデックスが作成されていません";;
         mret false
     | Some _ =>
         query_engine ← index_as_query_engine 3 japanese_template;
         perform (QueryEngineTool query_engine) (query_engine_tool query_engine);;
         perform (MemoryFromDefaults 1500) (memory_from_defaults 1500);;
         try_except_class ImportError
           (perform ImportSimpleChatEngine import_simple_chat_engine;;
            set_agent (Some query_engine);;
            st StSuccess "✅ クエリエンジン準備完了")
           (set_agent (Some query_engine);;
            st StSuccess "✅ 基本クエリエンジン準備完了");;
         st StSuccess "✅ ReActエージェント準備完了";;
         mret true
     end)
    (λ e,
       st StError ("❌ ReActエージェント作成エラー: " +:+ str_exn e);;
       st StError ("詳細エラー: " +:+ format_exc e);;
       mret false).

Definition load_pdfs_with_react : M Bot bool :=
  try_except
    (self ← get;
     found ← read (os_path_exists (pdf_folder self));
     if negb found then
       st StError ("❌ フォルダが見つかりません: " +:+ pdf_folder self);;
       mret false
     else
       names ← perform (ListDir (pdf_folder self)) (os_listdir (pdf_folder self));
       let pdf_files := filter (λ f, Text.endswith f ".pdf" = true) names in
       match pdf_files with
       | [] =>
           st StError "❌ PDFファイルが見つかりません";;
           mret false
       | _ =>
           st StSuccess ("📚 " +:+ pretty (length pdf_files) +:+ "個のPDFファイルを発見:");;
           for_each pdf_files (λ pdf_file, st StWrite ("  • " +:+ pdf_file));;
           st StSpinner "📄 PDFファイルを読み込み中...";;
           documents ← perform (LoadData (pdf_folder self)) (load_data (pdf_folder self));
           st StSuccess ("✅ " +:+ pretty (length documents) +:+ "個のドキュメントを読み込み完了");;
           st StSpinner "🔄 ベクトルインデックス作成中...";;
           idx ← perform (FromDocuments documents) (from_documents documents);
           set_index (Some idx);;
           st StSuccess "✅ インデックス作成完了";;
           created ← _create_react_agent;
           if created : bool then mret true else mret false
       end)
    (λ e,
       st StError ("❌ エラー: " +:+ str_exn e);;
       mret false).

(** *** Language conformance *)

Definition japanese_exceptions : list string :=
  ["pdf"; "PDF"; "auコマース"; "au"; "DC"; "API"].

(** [_contains_english] with the list of exceptions as a parameter. *)
Definition contains_english_with (exceptions : list string) (text : string) : bool :=
  let english_matches := Re.re_findall text in
  let filtered_matches := filter (λ m, m ∉ exceptions) english_matches in
  bool_decide (0 < length filtered_matches).

Definition _contains_english (text : string) : bool :=
  contains_english_with japanese_exceptions text.

Definition translate_prompt (response : string) : string :=
  "以下の文章を自然な日本語に変換してください。" +:+ Text.nl +:+
  "既に日本語の部分はそのまま保持し、英語の部分のみを日本語に変換してください。" +:+ Text.nl +:+
  "技術用語や固有名詞は適切な日本語表現に置き換えてください。" +:+ Text.nl +:+
  Text.nl +:+
  "元の文章:" +:+ Text.nl +:+
  response +:+ Text.nl +:+
  Text.nl +:+
  "自然な日本語での表現:".

Definition _force_japanese_response (response : string) : M Bot string :=
  if negb (_contains_english response) then mret response
  else
    try_except
      (st StSpinner "🔄 日本語に変換中...";;
       japanese_response ← perform (Complete (translate_prompt response))
                                   (llm_complete (translate_prompt response));
       mret (str_completion japanese_response))
      (λ e,
         st StWarning ("日本語変換エラー: " +:+ str_exn e);;
         mret response).

(** *** Source attribution *)

(** [f"{None:.3f}"] raises this exception. *)
Definition none_format_error : exn :=
  Exn TypeError "unsupported format string passed to NoneType.__format__".

(** The body of the loop over the nodes: the line for the node of rank [i].
    The score is formatted whenever the attribute exists, also when it holds
    [None], and then the formatting raises. *)
Definition source_line (i : nat) (node : NodeWithScore Score) : result string :=
  let file_name := default "不明な文書" (metadata node !! "file_name") in
  let page_info := default EmptyString (metadata node !! "page_label") in
  let source_info :=
    if decide (page_info = EmptyString)
    then pretty i +:+ ". " +:+ file_name
    else pretty i +:+ ". " +:+ file_name +:+ " (ページ: " +:+ page_info +:+ ")" in
  match score node with
  | NoScoreAttr => Ok source_info
  | ScoreIsNone => Err none_format_error
  | ScoreIs sc => Ok (source_info +:+ " - 関連度: " +:+ format_3f sc)
  end.

(** [for i, node in enumerate(nodes, i): ... sources.append(source_info)]:
    the loop stops at the first node whose line raises. *)
Fixpoint source_lines (i : nat) (nodes : list (NodeWithScore Score)) : result (list string) :=
  match nodes with
  | [] => Ok []
  | node :: rest =>
      match source_line i node with
      | Err e => Err e
      | Ok source_info =>
          match source_lines (S i) rest with
          | Err e => Err e
          | Ok sources => Ok (source_info :: sources)
          end
      end
  end.

Definition no_sources_message : string :=
  "📚 【出典情報】参考文書が見つかりませんでした。".

Definition sources_header : string := "📚 【参考文書・出典情報】".

Definition _get_source_info (question : string) : M Bot string :=
  try_except
    (retriever ← index_as_retriever 3;
     nodes ← perform (Retrieve retriever question) (retrieve retriever question);
     match nodes with
     | [] => mret no_sources_message
     | _ =>
         sources ← lift_result (source_lines 1 nodes);
         mret (sources_header +:+ Text.nl +:+ Text.join Text.nl sources)
     end)
    (λ e, mret ("📚 【出典情報取得エラー】" +:+ str_exn e)).

(** *** Question answering *)

Definition direct_search_marker : string := "【直接検索による回答】".

Definition _fallback_search (question : string) : M Bot string :=
  try_except
    (fallback_engine ← index_as_query_engine 5 japanese_fallback_template;
     response ← perform (Query fallback_engine question) (query fallback_engine question);
     japanese_response ← _force_japanese_response (str_response response);
     sources_info ← _get_source_info question;
     mret (direct_search_marker +:+ Text.nl +:+ japanese_response +:+
           Text.nl +:+ Text.nl +:+ sources_info))
    (λ fallback_error, mret ("❌ 検索エラー: " +:+ str_exn fallback_error)).

Definition not_initialized_message : string :=
  "エラー: エージェントが初期化されていません。PDFファイルの読み込みボタンを押してください。".

Definition ask_with_react (question : string) : M Bot string :=
  self ← get;
  match agent self with
  | None =>
      st StError "❌ エラー: エージェントが初期化されていません。PDFファイルの読み込みを行ってください。";;
      mret not_initialized_message
  | Some engine =>
      try_except
        (st StSpinner "🤖 PDF検索で分析中...";;
         response ← perform (Query engine question) (query engine question);
         japanese_response ← _force_japanese_response (str_response response);
         sources_info ← _get_source_info question;
         let full_response := japanese_response +:+ Text.nl +:+ Text.nl +:+ sources_info in
         mret full_response)
        (λ e,
           let error_msg := str_exn e in
           if Text.contains error_msg "Reached max iterations" ||
              Text.contains error_msg "max_iterations"
           then
             st StWarning "⚠️ ReActの処理時間が長いため、直接検索で回答します...";;
             _fallback_search question
           else
             st StError ("⚠️ エラーが発生しました: " +:+ error_msg);;
             _fallback_search question)
  end.

(** ** The page script *)

Inductive role := User | Assistant.

Definition role_name (r : role) : string :=
  match r with
  | User => "user"
  | Assistant => "assistant"
  end.

Record message := Message { msg_role : role; content : string }.

(** [st.session_state]: each of its three keys is absent until the script
    has set it. *)
Record SessionState := {
  chatbot : option Bot;
  messages : option (list message);
  initialized : option bool
}.

(** What the widgets return in one run of the script. *)
Record Widgets := {
  init_button : bool;            (* st.button("🚀 PDFファイル読み込み・初期化") *)
  chat_input : option string;    (* st.chat_input(...) *)
  clear_button : bool            (* st.button("🗑️ チャット履歴をクリア") *)
}.

Definition missing_key (key : string) : exn :=
  Exn AttributeError ("st.session_state has no attribute '" +:+ key +:+ "'").

Definition get_initialized : M SessionState bool :=
  ss ← get;
  match initialized ss with
  | Some b => mret b
  | None => raise (missing_key "initialized")
  end.

Definition set_initialized (b : bool) : M SessionState unit :=
  ss ← get;
  put {| chatbot := chatbot ss; messages := messages ss; initialized := Some b |}.

Definition get_messages : M SessionState (list message) :=
  ss ← get;
  match messages ss with
  | Some ms => mret ms
  | None => raise (missing_key "messages")
  end.

Definition set_messages (ms : list message) : M SessionState unit :=
  ss ← get;
  put {| chatbot := chatbot ss; messages := Some ms; initialized := initialized ss |}.

(** [st.session_state.messages.append(m)]. *)
Definition append_message (m : message) : M SessionState unit :=
  ms ← get_messages;
  set_messages (ms ++ [m]).

(** A method call on [st.session_state.chatbot]: the method works on the one
    object stored in the session, and what it assigns stays there. *)
Definition with_chatbot {A} (method : M Bot A) : M SessionState A :=
  λ ss w,
  match chatbot ss with
  | None => Run (Raise (missing_key "chatbot")) ss w []
  | Some self =>
      match method self w with
      | Run o self1 w1 l1 =>
          Run o {| chatbot := Some self1; messages := messages ss;
                   initialized := initialized ss |} w1 l1
      end
  end.

(** The three [if key not in st.session_state] initialisers. *)
Definition init_session_state : M SessionState unit :=
  ss ← get;
  match chatbot ss with
  | None =>
      bot ← new_bot "pdfs";
      put {| chatbot := Some bot; messages := messages ss; initialized := initialized ss |}
  | Some _ => mret tt
  end;;
  ss ← get;
  match messages ss with
  | None => put {| chatbot := chatbot ss; messages := Some []; initialized := initialized ss |}
  | Some _ => mret tt
  end;;
  ss ← get;
  match initialized ss with
  | None => put {| chatbot := chatbot ss; messages := messages ss; initialized := Some false |}
  | Some _ => mret tt
  end.

(** The agent-memory part of the history-clear handler. *)
Definition clear_agent_memory : M Bot unit :=
  self ← get;
  match agent self with
  | None => mret tt
  | Some engine =>
      try_except
        (memory ← lift_result (engine_memory engine);
         if has_reset memory then
           perform (MemoryReset memory) (memory_reset memory)
         else if has_clear memory then
           perform (MemoryClear memory) (memory_clear memory)
         else if has_chat_history memory then
           perform (MemorySetChatHistory memory) (memory_set_chat_history memory)
         else
           _create_react_agent;; mret tt)
        (λ e,
           st StWarning ("メモリクリアに失敗しましたが、エージェントを再作成します: " +:+ str_exn e);;
           _create_react_agent;; mret tt)
  end.

(** [if prompt := st.chat_input(...)]: one question and its answer. *)
Definition submit (prompt : string) : M SessionState unit :=
  append_message (Message User prompt);;
  st StChatMessage "user";;
  st StMarkdown prompt;;
  st StChatMessage "assistant";;
  response ← with_chatbot (ask_with_react prompt);
  st StMarkdown response;;
  (if _contains_english response then
     let english_ratio :=
       if 0 <? Text.len response
       then format_ratio (Re.count_letters response) (Text.len response)
       else "0.0%" in
     st SidebarWarning ("⚠️ 英語検出: " +:+ english_ratio);;
     st StExpander "🔍 デバッグ情報";;
     st StWrite "英語が含まれていたため日本語変換を実行しました"
   else
     st SidebarSuccess "✅ 完全日本語回答");;
  append_message (Message Assistant response).

Definition features_info : string :=
  Text.nl +:+
  "        ✅ 無限ループ防止・ツール統合により安定性向上" +:+ Text.nl +:+
  "        " +:+ Text.nl +:+
  "        📚 回答には参考文書・出典情報も表示" +:+ Text.nl +:+
  "        " +:+ Text.nl +:+
  "        🧠 会話履歴を記憶し、文脈を理解した回答が可能" +:+ Text.nl +:+
  "        ".

(** Truthiness of an optional string. *)
Definition truthy (v : option string) : bool :=
  match v with
  | Some (String _ _) => true
  | _ => false
  end.

Definition main (ui : Widgets) : M SessionState unit :=
  st StPageConfig "ReAct PDF ChatBot";;
  st StTitle "🤖 ReAct PDF ChatBot";;
  st StMarkdown "---";;
  st StHeader "📊 システム情報";;
  key ← read (os_getenv "OPENAI_API_KEY");
  (if negb (truthy key) then
     st StError "❌ OPENAI_API_KEY が設定されていません";;
     signal Stop
   else
     st StSuccess "✅ OpenAI API Key 設定済み");;
  st StMarkdown "### 🔧 機能";;
  st StInfo features_info;;
  init_session_state;;
  ready ← get_initialized;
  if negb ready then
    st StInfo "📁 PDFファイルを読み込んでチャットボットを初期化してください";;
    if init_button ui then
      loaded ← with_chatbot load_pdfs_with_react;
      if loaded : bool then
        set_initialized true;;
        signal Rerun
      else mret tt
    else mret tt
  else
    history ← get_messages;
    for_each history (λ m,
      st StChatMessage (role_name (msg_role m));;
      st StMarkdown (content m));;
    (if truthy (chat_input ui)
     then submit (default EmptyString (chat_input ui))
     else mret tt);;
    if clear_button ui then
      set_messages [];;
      with_chatbot clear_agent_memory;;
      signal Rerun
    else mret tt.

End Program.

(** The expected type of a run fixes the world it talks about. *)
Arguments Run {E S A} & out obj world log.

(** ** Vocabulary of the specification *)

Section Vocabulary.
Context {E : Externals}.

(** *** Language conformance, in the words of the specification *)

(** Every maximal run of three or more letters is an allow-list entry. *)
Definition conformant (text : string) : Prop :=
  ∀ r, Re.maximal_run (list_ascii_of_string text) r → 3 ≤ length r →
       string_of_list_ascii r ∈ japanese_exceptions.

(** Some maximal run of three or more letters is not on the allow-list. *)
Definition has_disallowed_run (text : string) : Prop :=
  ∃ r, Re.maximal_run (list_ascii_of_string text) r ∧ 3 ≤ length r ∧
       string_of_list_ascii r ∉ japanese_exceptions.

(** The allow-list without the entries that no match can equal. *)
Definition effective_exceptions : list string := ["pdf"; "PDF"; "API"].

(** The fixed text around the answer in the rewrite prompt. *)
Definition prompt_before : string :=
  "以下の文章を自然な日本語に変換してください。" +:+ Text.nl +:+
  "既に日本語の部分はそのまま保持し、英語の部分のみを日本語に変換してください。" +:+ Text.nl +:+
  "技術用語や固有名詞は適切な日本語表現に置き換えてください。" +:+ Text.nl +:+
  Text.nl +:+
  "元の文章:" +:+ Text.nl.

Definition prompt_after : string :=
  Text.nl +:+ Text.nl +:+ "自然な日本語での表現:".

(** *** Citation lines, in the words of the specification *)








(** *** Logs *)

Definition safe_calls (l : list event) : Prop :=
  Forall (λ c, engine_lookup_on_none c = false) (calls l).

(** The lists of documents handed to the index builder. *)
Definition indexed_documents (l : list event) : list (list Document) :=
  omap (λ ev, match ev with
              | Call (FromDocuments documents) => Some documents
              | _ => None
              end) l.

(** A diagnostic was shown. *)
Definition shows_error (l : list event) : Prop := ∃ msg, Ui StError msg ∈ l.

(** What [ask_with_react] shows before it takes the fallback path. *)
Definition fallback_notice (e : exn) : event :=
  if Text.contains (str_exn e) "Reached max iterations" ||
     Text.contains (str_exn e) "max_iterations"
  then Ui StWarning "⚠️ ReActの処理時間が長いため、直接検索で回答します..."
  else Ui StError ("⚠️ エラーが発生しました: " +:+ str_exn e).

Definition is_pdf (name : string) : Prop := Text.endswith name ".pdf" = true.

(** What every run of the page shows first when the credential is set. *)
Definition page_header : list event :=
  [Ui StPageConfig "ReAct PDF ChatBot"; Ui StTitle "🤖 ReAct PDF ChatBot";
   Ui StMarkdown "---"; Ui StHeader "📊 システム情報";
   Ui StSuccess "✅ OpenAI API Key 設定済み"; Ui StMarkdown "### 🔧 機能";
   Ui StInfo features_info].

Definition history_events (ms : list message) : list event :=
  concat ((λ m, [Ui StChatMessage (role_name (msg_role m)); Ui StMarkdown (content m)]) <$> ms).

Definition has_api_key (w : World) : Prop := truthy (os_getenv "OPENAI_API_KEY" w) = true.

(** *** Session states *)

Definition uninitialized_session (self : Bot) (ms : list message) : SessionState :=
  {| chatbot := Some self; messages := Some ms; initialized := Some false |}.

Definition ready_session (self : Bot) (ms : list message) : SessionState :=
  {| chatbot := Some self; messages := Some ms; initialized := Some true |}.

(** The session state before the first run of the script. *)
Definition empty_session : SessionState :=
  {| chatbot := None; messages := None; initialized := None |}.

(** The object that [StreamlitReActChatBot()] constructs. *)
Definition constructed_bot : Bot :=
  {| pdf_folder := "pdfs"; agent := None; index := None |}.

(** *** Memory reset *)




(** *** Reachable chatbot objects *)

Inductive bot_op :=
| OpLoad                      (* load_pdfs_with_react() *)
| OpAsk (question : string)   (* ask_with_react(question) *)
| OpClear                     (* the memory part of the clear handler *)
| OpRebuild.                  (* _create_react_agent() *)

Definition after_op (op : bot_op) (self : Bot) (w : World) : Bot :=
  match op with
  | OpLoad => obj (load_pdfs_with_react self w)
  | OpAsk question => obj (ask_with_react question self w)
  | OpClear => obj (clear_agent_memory self w)
  | OpRebuild => obj (_create_react_agent self w)
  end.

(** The objects that exist after construction and any sequence of calls, in
    any state of the outside world. *)
Inductive reachable : Bot → Prop :=
| reachable_new folder w self :
    out (new_bot (S := unit) folder tt w) = Ret self → reachable self
| reachable_step self op w :
    reachable self → reachable (after_op op self w).

Definition agent_has_index (self : Bot) : Prop :=
  is_Some (agent self) → is_Some (index self).

(** The events after the answer of a submit: the sidebar's judgement of the
    answer's language. *)
Definition language_indicator (response : string) : list event :=
  if _contains_english response then
    [Ui SidebarWarning
       ("⚠️ 英語検出: " +:+ format_ratio (Re.count_letters response) (Text.len response));
     Ui StExpander "🔍 デバッグ情報";
     Ui StWrite "英語が含まれていたため日本語変換を実行しました"]
  else [Ui SidebarSuccess "✅ 完全日本語回答"].

(** The object after a sequence of operations, each in its own world. *)
Fixpoint after_ops (ops : list (bot_op * World)) (self : Bot) : Bot :=
  match ops with
  | [] => self
  | (op, w) :: ops' => after_ops ops' (after_op op self w)
  end.

End Vocabulary.

(** ** A concrete outside world

    A configurable instance of [Externals], used to run the program on
    explicit inputs.  The world is a scenario that never changes; an index is
    the list of documents it was built from, engines and retrievers are their
    top-k, and scores are thousandths. *)

Module Demo.

Record MemoryShape := {
  reset_method : option (result unit);
  clear_method : option (result unit);
  chat_history_attr : option (result unit)
}.

Record Engine := { engine_top_k : nat; engine_memory_attr : result MemoryShape }.

Record Scenario := {
  api_key : option string;
  folder_exists : bool;
  files : result (list string);
  documents : result (list string);
  index_builds : result unit;
  engine_builds : nat → result unit;
  tool_builds : result unit;
  memory_builds : result unit;
  import_works : result unit;
  answers : nat → string → result string;
  completion : string → result string;
  nodes : result (list (NodeWithScore N));
  memory_attr : result MemoryShape
}.

Definition on_ok {A B} (r : result A) (b : B) : result B :=
  match r with
  | Ok _ => Ok b
  | Err e => Err e
  end.

Definition pad3 (n : N) : string :=
  ((if n <? 100 then "0" else EmptyString) +:+ (if n <? 10 then "0" else EmptyString) +:+ pretty n)%N.

Definition thousandths (n : N) : string :=
  (pretty (n `div` 1000) +:+ "." +:+ pad3 (n `mod` 1000))%N.

(** [f"{n / d:.1%}"]: the ratio in percent with one decimal, to the nearest
    tenth of a percent.  A ratio exactly halfway between two tenths goes
    upwards here; Python decides it by the binary value of the quotient. *)
Definition percent1 (n d : N) : string :=
  let tenths := ((2000 * n + d) `div` (2 * d))%N in
  (pretty (tenths `div` 10) +:+ "." +:+ pretty (tenths `mod` 10) +:+ "%")%N.

Definition method_result (m : option (result unit)) : result unit :=
  default (Err (Exn AttributeError "no such method")) m.

#[export] Instance externals : Externals := {|
  World := Scenario;
  Document := string;
  Index := list string;
  QueryEngine := Engine;
  Retriever := nat;
  Memory := MemoryShape;
  Response := string;
  CompletionResponse := string;
  Score := N;
  os_getenv := λ name w, if String.eqb name "OPENAI_API_KEY" then api_key w else None;
  os_path_exists := λ _ w, folder_exists w;
  os_listdir := λ _ w, (files w, w);
  openai_llm := λ w, (Ok tt, w);
  load_data := λ _ w, (documents w, w);
  from_documents := λ docs w, (on_ok (index_builds w) docs, w);
  as_query_engine := λ _ k _ w,
    (on_ok (engine_builds w k) {| engine_top_k := k; engine_memory_attr := memory_attr w |}, w);
  query_engine_tool := λ _ w, (tool_builds w, w);
  memory_from_defaults := λ _ w, (memory_builds w, w);
  import_simple_chat_engine := λ w, (import_works w, w);
  query := λ e q w, (answers w (engine_top_k e) q, w);
  str_response := λ r, r;
  llm_complete := λ p w, (completion w p, w);
  str_completion := λ r, r;
  as_retriever := λ _ k w, (Ok k, w);
  retrieve := λ k _ w, (match nodes w with Ok ns => Ok (take k ns) | Err e => Err e end, w);
  format_3f := thousandths;
  format_ratio := λ n d, percent1 (N.of_nat n) (N.of_nat d);
  format_exc := λ e, "Traceback (most recent call last): " +:+ str_exn e;
  engine_memory := engine_memory_attr;
  has_reset := λ m, bool_decide (is_Some (reset_method m));
  has_clear := λ m, bool_decide (is_Some (clear_method m));
  has_chat_history := λ m, bool_decide (is_Some (chat_history_attr m));
  memory_reset := λ m w, (method_result (reset_method m), w);
  memory_clear := λ m w, (method_result (clear_method m), w);
  memory_set_chat_history := λ m w, (method_result (chat_history_attr m), w)
|}.

(** The usual case: two PDF files, three chunks retrieved, a model that
    answers in Japanese and translates on request. *)
Definition node (file : string) (page : option string) (sc : score_attr N) :
    NodeWithScore N :=
  Node (match page with
        | Some p => <["page_label" := p]> {["file_name" := file]}
        | None => {["file_name" := file]}
        end) sc.

Definition japanese_answers (top_k : nat) (question : string) : result string :=
  if top_k =? 3 then Ok "第一条は目的を定めます。" else Ok "第一条です。".

Definition no_memory : result MemoryShape :=
  Err (Exn AttributeError "'RetrieverQueryEngine' object has no attribute 'memory'").

Definition office_with
    (names : list string) (docs : result (list string)) (engines : nat → result unit)
    (replies : nat → string → result string) (rewrite : string → result string)
    (memory : result MemoryShape) : Scenario := {|
  api_key := Some "sk-test";
  folder_exists := true;
  files := Ok names;
  documents := docs;
  index_builds := Ok tt;
  engine_builds := engines;
  tool_builds := Ok tt;
  memory_builds := Ok tt;
  import_works := Ok tt;
  answers := replies;
  completion := rewrite;
  nodes := Ok [node "kitei.pdf" (Some "3") (ScoreIs 873%N);
               node "teikan.pdf" None (ScoreIs 5%N);
               node "memo.pdf" (Some EmptyString) NoScoreAttr;
               node "extra.pdf" None NoScoreAttr];
  memory_attr := memory
|}.

Definition office : Scenario :=
  office_with ["kitei.pdf"; "memo.txt"; "teikan.pdf"] (Ok ["給与規程"; "定款"])
    (λ _, Ok tt) japanese_answers (λ _, Ok "これは日本語です。") no_memory.

(** The folder holds PDF files, but the reader extracts no document. *)
Definition unreadable_pdfs : Scenario :=
  office_with ["broken.pdf"] (Ok []) (λ _, Ok tt) japanese_answers
    (λ _, Ok "これは日本語です。") no_memory.

(** The index is built, then the construction of the query engine fails. *)
Definition engine_fails : Scenario :=
  office_with ["kitei.pdf"] (Ok ["給与規程"])
    (λ _, Err (Exn OtherError "No API key found for OpenAI."))
    japanese_answers (λ _, Ok "これは日本語です。") no_memory.

(** No file of the folder ends in [.pdf]. *)
Definition no_pdf_files : Scenario :=
  office_with ["memo.txt"; "scan.PDF"] (Ok ["メモ"]) (λ _, Ok tt) japanese_answers
    (λ _, Ok "これは日本語です。") no_memory.

(** The primary engine (top-k 3) gives up; the fallback engine answers. *)
Definition primary_gives_up : Scenario :=
  office_with ["kitei.pdf"] (Ok ["給与規程"]) (λ _, Ok tt)
    (λ top_k _, if top_k =? 3 then Err (Exn OtherError "Reached max iterations.")
                else Ok "第一条です。")
    (λ _, Ok "これは日本語です。") no_memory.

(** The model client fails on the rewrite request. *)
Definition rewrite_fails : Scenario :=
  office_with ["kitei.pdf"] (Ok ["給与規程"]) (λ _, Ok tt) japanese_answers
    (λ _, Err (Exn OtherError "Rate limit exceeded")) no_memory.

Definition fresh_bot : Bot := {| pdf_folder := "pdfs"; agent := None; index := None |}.

Definition ready_bot : Bot :=
  {| pdf_folder := "pdfs";
     agent := Some {| engine_top_k := 3; engine_memory_attr := no_memory |};
     index := Some ["給与規程"; "定款"] |}.

Definition press_init : Widgets :=
  {| init_button := true; chat_input := None; clear_button := false |}.


Definition ask (question : string) : Widgets :=
  {| init_button := false; chat_input := Some question; clear_button := false |}.

Definition earlier_turns : list message :=
  [Message User "第一条は?"; Message Assistant "第一条は目的を定めます。"].

(** [s] with another credential, folder state, import result and retrieval
    result. *)
Definition adjust (s : Scenario) (key : option string) (folder : bool)
    (import : result unit) (found : result (list (NodeWithScore N))) : Scenario := {|
  api_key := key;
  folder_exists := folder;
  files := files s;
  documents := documents s;
  index_builds := index_builds s;
  engine_builds := engine_builds s;
  tool_builds := tool_builds s;
  memory_builds := memory_builds s;
  import_works := import;
  answers := answers s;
  completion := completion s;
  nodes := found;
  memory_attr := memory_attr s
|}.

(** The credential is not in the environment. *)
Definition no_credential : Scenario :=
  adjust office None true (Ok tt) (nodes office).

(** The folder of PDF files does not exist. *)
Definition no_folder : Scenario :=
  adjust office (Some "sk-test") false (Ok tt) (nodes office).

(** The chat-engine class cannot be imported. *)
Definition import_missing : Scenario :=
  adjust office (Some "sk-test") true
    (Err (Exn ImportError "cannot import name 'SimpleChatEngine'")) (nodes office).

(** The retriever fails. *)
Definition retriever_fails : Scenario :=
  adjust office (Some "sk-test") true (Ok tt) (Err (Exn OtherError "Connection error.")).


(** The reader cannot read the folder's files. *)
Definition reader_fails : Scenario :=
  office_with ["kitei.pdf"] (Err (Exn OtherError "Permission denied")) (λ _, Ok tt)
    japanese_answers (λ _, Ok "これは日本語です。") no_memory.

(** Every engine fails to answer. *)
Definition all_queries_fail : Scenario :=
  office_with ["kitei.pdf"] (Ok ["給与規程"]) (λ _, Ok tt)
    (λ _ _, Err (Exn OtherError "Connection error."))
    (λ _, Ok "これは日本語です。") no_memory.

(** An object with an index but no agent yet. *)
Definition indexed_bot : Bot :=
  {| pdf_folder := "pdfs"; agent := None; index := Some ["給与規程"; "定款"] |}.

(** The fresh object with the index of one document and still no agent. *)
Definition index_only_bot : Bot :=
  {| pdf_folder := "pdfs"; agent := None; index := Some ["給与規程"] |}.

End Demo.


(** * Properties *)

(** ** The regular-expression scan *)

Section ReFacts.
Import Re.

Lemma findall_cons c s' :
  findall (c :: s') =
  match match_here (c :: s') with
  | Some (m, r) => m :: findall r
  | None => findall s'
  end.
Proof.
  rewrite findall_equation_2.
  generalize (keep_eq (match_here (c :: s'))). intros [o e].
  transitivity (match o with Some (m, r) => m :: findall r | None => findall s' end);
    [|by rewrite e].
  by destruct o as [[m r]|].
Qed.

Lemma letters_prefix_spec s m r :
  letters_prefix s = (m, r) →
  s = m ++ r ∧ all_letters m = true ∧
  (∀ c, head r = Some c → is_ascii_letter c = false).
Proof.
  revert m r. induction s as [|x s IH]; simpl; intros m r H.
  - inversion H; subst. repeat split; intros; discriminate.
  - destruct (is_ascii_letter x) eqn:Hx.
    + destruct (letters_prefix s) as [m' r']. inversion H; subst.
      destruct (IH m' r eq_refl) as (-> & Hm & Hr).
      repeat split; [|done]. simpl. by rewrite Hx, Hm.
    + inversion H; subst. repeat split. intros c [= ->]. done.
Qed.

Lemma letters_prefix_unique m r :
  all_letters m = true →
  (∀ c, head r = Some c → is_ascii_letter c = false) →
  letters_prefix (m ++ r) = (m, r).
Proof.
  intros Hm Hr. induction m as [|x m IH]; simpl.
  - destruct r as [|c r]; [done|]. simpl. by rewrite (Hr c eq_refl).
  - simpl in Hm. apply andb_true_iff in Hm as [Hx Hm].
    rewrite Hx, (IH Hm). done.
Qed.

Lemma letters_prefix_skip pre t m rest d :
  letters_prefix (pre ++ t) = (m, rest) →
  last pre = Some d → is_ascii_letter d = false →
  ∃ pre', pre = m ++ pre' ∧ rest = pre' ++ t ∧ last pre' = Some d.
Proof.
  revert m. induction pre as [|x pre IH]; intros m H Hl Hd; [discriminate|].
  simpl in H. destruct (is_ascii_letter x) eqn:Hx.
  - destruct (letters_prefix (pre ++ t)) as [m' r'] eqn:Hp. inversion H; subst.
    destruct pre as [|y pre].
    { simpl in Hl. inversion Hl; subst. congruence. }
    rewrite last_cons_cons in Hl.
    destruct (IH m' eq_refl Hl Hd) as (pre' & E1 & E2 & E3).
    exists pre'. by rewrite E1.
  - inversion H; subst. exists (x :: pre). done.
Qed.

Lemma maximal_run_nonempty text r : maximal_run text r → ∃ c s', text = c :: s'.
Proof.
  intros (pre & post & -> & Hne & _).
  destruct pre as [|c pre]; simpl; [|by eauto].
  destruct r as [|c r]; [done|]. simpl. eauto.
Qed.

Lemma all_letters_head r c : all_letters r = true → head r = Some c → is_ascii_letter c = true.
Proof.
  destruct r as [|x r]; [done|]. simpl. intros H [= ->].
  by apply andb_true_iff in H as [? _].
Qed.

(** [re.findall] returns exactly the maximal runs of at least three
    letters. *)
Lemma findall_spec s r :
  r ∈ findall s ↔ maximal_run s r ∧ 3 ≤ length r.
Proof.
  remember (length s) as n eqn:Hn. revert s Hn r.
  induction n as [n IH] using lt_wf_ind. intros s Hn r.
  destruct s as [|c s'].
  { rewrite findall_equation_1. split.
    - intros H. by apply elem_of_nil in H.
    - intros [H _]. apply maximal_run_nonempty in H as (? & ? & ?). done. }
  rewrite findall_cons. unfold match_here.
  destruct (letters_prefix (c :: s')) as [m rest] eqn:Hp.
  pose proof (letters_prefix_spec _ _ _ Hp) as (Hs & Hm & Hrest).
  assert (Hlen : length (c :: s') = length m + length rest)
    by (rewrite Hs at 1; apply length_app).
  simpl in Hlen.
  destruct (3 <=? length m) eqn:H3.
  - apply Nat.leb_le in H3.
    rewrite elem_of_cons, (IH (length rest)); [|subst n; simpl; lia|done].
    split.
    + intros [->|[(pre & post & E & Hne & Hr & Hpre & Hpost) Hl]].
      * split; [|done]. exists [], rest. split_and!; try done.
        intros ->. simpl in H3. lia.
      * split; [|done]. exists (m ++ pre), post.
        rewrite Hs, E, <- app_assoc. repeat split; try done.
        intros d Hd. destruct pre as [|y pre].
        { simpl in E. destruct r as [|x r]; [done|].
          assert (is_ascii_letter x = false) by (apply Hrest; by rewrite E).
          assert (is_ascii_letter x = true) by (by apply (all_letters_head (x :: r))).
          congruence. }
        apply Hpre. by rewrite last_app_cons in Hd.
    + intros [(pre & post & E & Hne & Hr & Hpre & Hpost) Hl].
      destruct (last pre) as [d|] eqn:Hd.
      * right. split; [|done].
        rewrite E in Hp.
        destruct (letters_prefix_skip _ _ _ _ d Hp Hd (Hpre d eq_refl))
          as (pre' & E1 & E2 & E3).
        exists pre', post. split_and!; try done.
        intros d' Hd'. rewrite E3 in Hd'. inversion Hd'; subst d'. by apply Hpre.
      * left. apply last_None in Hd. subst pre. simpl in E.
        rewrite E, (letters_prefix_unique r post Hr Hpost) in Hp. congruence.
  - apply Nat.leb_gt in H3.
    rewrite (IH (length s')); [|subst n; simpl; lia|done].
    split.
    + intros [(pre & post & E & Hne & Hr & Hpre & Hpost) Hl].
      split; [|done]. exists (c :: pre), post. rewrite E.
      repeat split; try done.
      intros d Hd. destruct pre as [|y pre].
      * simpl in Hd. inversion Hd; subst d. simpl in E.
        destruct (is_ascii_letter c) eqn:Hc; [|done]. exfalso.
        simpl in Hp. rewrite Hc, E, (letters_prefix_unique r post Hr Hpost) in Hp.
        inversion Hp; subst. simpl in H3. lia.
      * apply Hpre. by rewrite last_cons_cons in Hd.
    + intros [(pre & post & E & Hne & Hr & Hpre & Hpost) Hl].
      split; [|done]. destruct pre as [|x pre].
      * exfalso. simpl in E.
        rewrite E, (letters_prefix_unique r post Hr Hpost) in Hp.
        inversion Hp; subst. lia.
      * simpl in E. inversion E; subst x. exists pre, post.
        repeat split; try done.
        intros d Hd. apply Hpre. destruct pre as [|y pre]; [done|].
        by rewrite last_cons_cons.
Qed.

End ReFacts.

(** ** Text facts *)

Section TextFacts.
Import Text.
#[local] Arguments String.append !_ _ / : simpl nomatch.

Lemma append_assoc (a b c : string) : (a +:+ b) +:+ c = a +:+ b +:+ c.
Proof. induction a as [|x a IH]; simpl; [done|]. by rewrite IH. Qed.


Lemma startswith_app (p rest : string) : startswith (p +:+ rest) p = true.
Proof.
  induction p as [|a p IH]; simpl; [reflexivity|].
  rewrite Ascii.eqb_refl. exact IH.
Qed.

Lemma contains_unfold (s sub : string) :
  contains s sub =
  startswith s sub || match s with EmptyString => false | String _ s' => contains s' sub end.
Proof. destruct s; reflexivity. Qed.

Lemma contains_app (pre mid post : string) :
  contains (pre +:+ mid +:+ post) mid = true.
Proof.
  induction pre as [|a pre IH]; simpl.
  - rewrite contains_unfold, startswith_app. reflexivity.
  - rewrite IH. apply orb_true_r.
Qed.

End TextFacts.

(** ** Language conformance *)

Section ConformanceFacts.
Context {E : Externals}.
Import Re.

Lemma filter_nonempty {A} (P : A → Prop) `{∀ x, Decision (P x)} (l : list A) :
  0 < length (filter P l) ↔ ∃ x, x ∈ l ∧ P x.
Proof.
  split.
  - destruct (filter P l) as [|x xs] eqn:Hf; simpl; [lia|]. intros _.
    assert (Hx : x ∈ filter P l) by (rewrite Hf; apply list_elem_of_here).
    apply list_elem_of_filter in Hx as [? ?]. eauto.
  - intros (x & Hx & HP).
    assert (Hin : x ∈ filter P l) by (by apply list_elem_of_filter).
    destruct (filter P l); [by apply elem_of_nil in Hin|simpl; lia].
Qed.

(** The detector fires exactly when some maximal run of three or more
    letters is missing from the list of exceptions. *)
Lemma contains_english_with_true exceptions text :
  contains_english_with exceptions text = true ↔
  ∃ r, maximal_run (list_ascii_of_string text) r ∧ 3 ≤ length r ∧
       string_of_list_ascii r ∉ exceptions.
Proof.
  unfold contains_english_with, re_findall.
  rewrite bool_decide_eq_true, filter_nonempty. split.
  - intros (m & Hm & Hnot). apply list_elem_of_fmap in Hm as (r & -> & Hr).
    apply findall_spec in Hr as [? ?]. eauto.
  - intros (r & Hrun & Hlen & Hnot). exists (string_of_list_ascii r). split; [|done].
    apply list_elem_of_fmap. exists r. split; [done|]. by apply findall_spec.
Qed.

Lemma contains_english_true text :
  _contains_english text = true ↔ has_disallowed_run text.
Proof. apply contains_english_with_true. Qed.

Lemma contains_english_false text :
  _contains_english text = false ↔ conformant text.
Proof.
  rewrite <- not_true_iff_false, contains_english_true.
  unfold has_disallowed_run, conformant. split.
  - intros Hnone r Hrun Hlen.
    destruct (decide (string_of_list_ascii r ∈ japanese_exceptions)); [done|].
    exfalso. apply Hnone. eauto.
  - intros Hall (r & Hrun & Hlen & Hnot). apply Hnot. by apply Hall.
Qed.

(** A match consists of at least three letters. *)
Lemma re_findall_match text m :
  m ∈ re_findall text →
  3 ≤ length (list_ascii_of_string m) ∧ all_letters (list_ascii_of_string m) = true.
Proof.
  unfold re_findall. intros (r & -> & Hr)%list_elem_of_fmap.
  apply findall_spec in Hr as [(pre & post & _ & _ & Hletters & _) Hlen].
  by rewrite list_ascii_of_string_of_list_ascii.
Qed.

(** The entries that no match can equal make no difference. *)
Lemma exceptions_effective text m :
  m ∈ re_findall text → m ∉ japanese_exceptions ↔ m ∉ effective_exceptions.
Proof.
  intros Hm. apply re_findall_match in Hm as [Hlen Hletters].
  unfold japanese_exceptions, effective_exceptions.
  rewrite !elem_of_cons, !elem_of_nil. split.
  - intros Hnot H. apply Hnot. tauto.
  - intros Hnot [?|[?|[?|[?|[?|[?|[]]]]]]]; subst m;
      try (apply Hnot; tauto); try (simpl in Hlen; lia); try discriminate.
Qed.

Lemma list_filter_iff_elem {A} (P Q : A → Prop)
    `{∀ x, Decision (P x)} `{∀ x, Decision (Q x)} (l : list A) :
  (∀ x, x ∈ l → P x ↔ Q x) → filter P l = filter Q l.
Proof.
  induction l as [|x l IH]; intros Hiff; [done|].
  rewrite !filter_cons. rewrite IH by (intros y Hy; apply Hiff; by apply list_elem_of_further).
  destruct (decide (P x)) as [HP|HP], (decide (Q x)) as [HQ|HQ]; try done.
  - exfalso. apply HQ, Hiff; [apply list_elem_of_here|done].
  - exfalso. apply HP, Hiff; [apply list_elem_of_here|done].
Qed.

End ConformanceFacts.


(** ** The methods of the chatbot, run symbolically *)

Ltac unfold_monad :=
  unfold mbind, mret, M_bind, M_ret, try_except, try_except_class, perform, st,
    emit, get, put, raise, signal, read, lift_result, set_agent, set_index in *.

(** Case analysis on the next outbound call. *)
Ltac step :=
  match goal with
  | |- context [match ?f ?w with pair _ _ => _ end] =>
      let r := fresh "r" in let w' := fresh "w" in let H := fresh "Hcall" in
      destruct (f w) as [[r|r] w'] eqn:H; simpl
  end.

Ltac unfold_main :=
  unfold main, submit, init_session_state, get_initialized, set_initialized,
    get_messages, set_messages, append_message, with_chatbot, has_api_key in *.

Section ProgramFacts.
Context {E : Externals}.

#[local] Arguments japanese_template : simpl never.
#[local] Arguments japanese_fallback_template : simpl never.
#[local] Arguments translate_prompt : simpl never.
#[local] Arguments String.append : simpl never.
#[local] Arguments for_each : simpl never.
#[local] Arguments _contains_english : simpl never.
#[local] Arguments _create_react_agent : simpl never.
#[local] Arguments load_pdfs_with_react : simpl never.
#[local] Arguments _force_japanese_response : simpl never.
#[local] Arguments _get_source_info : simpl never.
#[local] Arguments _fallback_search : simpl never.
#[local] Arguments ask_with_react : simpl never.
#[local] Arguments clear_agent_memory : simpl never.

Lemma for_each_emits {S A} (xs : list A) (body : A → M S unit) (evs : A → list event) s w :
  (∀ x s w, body x s w = Run (Ret tt) s w (evs x)) →
  for_each xs body s w = Run (Ret tt) s w (concat (evs <$> xs)).
Proof.
  intros Hbody. induction xs as [|x xs IH]; [reflexivity|].
  unfold for_each; fold (@for_each E S A). unfold_monad.
  rewrite Hbody, IH. reflexivity.
Qed.

(** [_force_japanese_response] makes at most one outbound call and always
    returns. *)
Lemma force_japanese_response_run text self w :
  _force_japanese_response text self w =
  if _contains_english text then
    match llm_complete (translate_prompt text) w with
    | (Ok resp, w1) =>
        Run (Ret (str_completion resp)) self w1
          [Ui StSpinner "🔄 日本語に変換中..."; Call (Complete (translate_prompt text))]
    | (Err e, w1) =>
        Run (Ret text) self w1
          [Ui StSpinner "🔄 日本語に変換中..."; Call (Complete (translate_prompt text));
           Ui StWarning ("日本語変換エラー: " +:+ str_exn e)]
    end
  else Run (Ret text) self w [].
Proof.
  unfold _force_japanese_response.
  destruct (_contains_english text); simpl; [|reflexivity].
  unfold_monad. by step.
Qed.

Lemma get_source_info_run question self w :
  _get_source_info question self w =
  match index self with
  | None =>
      Run (Ret ("📚 【出典情報取得エラー】" +:+ "'NoneType' object has no attribute 'as_retriever'"))
        self w [Call (AsRetriever None 3)]
  | Some idx =>
      match as_retriever idx 3 w with
      | (Err e, w1) =>
          Run (Ret ("📚 【出典情報取得エラー】" +:+ str_exn e)) self w1
            [Call (AsRetriever (Some idx) 3)]
      | (Ok rt, w1) =>
          match retrieve rt question w1 with
          | (Err e, w2) =>
              Run (Ret ("📚 【出典情報取得エラー】" +:+ str_exn e)) self w2
                [Call (AsRetriever (Some idx) 3); Call (Retrieve rt question)]
          | (Ok ns, w2) =>
              Run (Ret (match ns with
                        | [] => no_sources_message
                        | _ =>
                            match source_lines 1 ns with
                            | Ok sources =>
                                sources_header +:+ Text.nl +:+ Text.join Text.nl sources
                            | Err e => "📚 【出典情報取得エラー】" +:+ str_exn e
                            end
                        end))
                self w2
                [Call (AsRetriever (Some idx) 3); Call (Retrieve rt question)]
          end
      end
  end.
Proof.
  unfold _get_source_info, index_as_retriever. unfold_monad.
  destruct (index self) as [idx|]; simpl; [|reflexivity].
  step; [|reflexivity]. step; [|reflexivity].
  destruct r0 as [|n ns]; [reflexivity|].
  by destruct (source_lines 1 (n :: ns)).
Qed.


Lemma safe_calls_app l1 l2 : safe_calls l1 → safe_calls l2 → safe_calls (l1 ++ l2).
Proof. unfold safe_calls, calls. rewrite omap_app, Forall_app. done. Qed.

Lemma safe_calls_cons_ui k msg l : safe_calls l → safe_calls (Ui k msg :: l).
Proof. done. Qed.

Lemma safe_calls_cons_call c l :
  engine_lookup_on_none c = false → safe_calls l → safe_calls (Call c :: l).
Proof. unfold safe_calls. simpl. by constructor. Qed.

Lemma safe_calls_nil : safe_calls [].
Proof. constructor. Qed.

Ltac safe :=
  repeat first
    [ apply safe_calls_nil
    | apply safe_calls_cons_ui
    | apply safe_calls_cons_call; [reflexivity|]
    | apply safe_calls_app
    | assumption ].

Lemma force_japanese_response_returns text self w :
  ∃ s w1 l, _force_japanese_response text self w = Run (Ret s) self w1 l ∧ safe_calls l.
Proof.
  rewrite force_japanese_response_run.
  destruct (_contains_english text); [|eexists _, _, _; split; [done|safe]].
  destruct (llm_complete _ w) as [[resp|e] w1]; eexists _, _, _; (split; [done|safe]).
Qed.

Lemma get_source_info_returns question self w :
  ∃ s w1 l, _get_source_info question self w = Run (Ret s) self w1 l ∧ safe_calls l.
Proof.
  rewrite get_source_info_run.
  destruct (index self) as [idx|]; [|eexists _, _, _; split; [done|safe]].
  destruct (as_retriever idx 3 w) as [[rt|e] w1]; [|eexists _, _, _; split; [done|safe]].
  destruct (retrieve rt question w1) as [[ns|e] w2];
    eexists _, _, _; (split; [done|safe]).
Qed.

(** The fallback path, when its own engine and query succeed. *)
Lemma fallback_search_success question self w idx engine w1 resp w2 :
  index self = Some idx →
  as_query_engine idx 5 japanese_fallback_template w = (Ok engine, w1) →
  query engine question w1 = (Ok resp, w2) →
  ∃ japanese_response w3 l3 sources_info w4 l4,
    _force_japanese_response (str_response resp) self w2 = Run (Ret japanese_response) self w3 l3 ∧
    _get_source_info question self w3 = Run (Ret sources_info) self w4 l4 ∧
    _fallback_search question self w =
      Run (Ret (direct_search_marker +:+ Text.nl +:+ japanese_response +:+
                Text.nl +:+ Text.nl +:+ sources_info)) self w4
        ([Call (AsQueryEngine (Some idx) 5 japanese_fallback_template);
          Call (Query engine question)] ++ l3 ++ l4).
Proof.
  intros Hidx Heng Hq.
  destruct (force_japanese_response_returns (str_response resp) self w2)
    as (jr & w3 & l3 & Hf & _).
  destruct (get_source_info_returns question self w3) as (si & w4 & l4 & Hs & _).
  exists jr, w3, l3, si, w4, l4. split_and!; [done..|].
  unfold _fallback_search, index_as_query_engine. unfold_monad.
  rewrite Hidx. simpl. rewrite Heng. simpl. rewrite Hq. simpl.
  rewrite Hf. simpl. rewrite Hs. simpl. by rewrite app_nil_r.
Qed.

Lemma fallback_search_returns question self w :
  ∃ s w1 l, _fallback_search question self w = Run (Ret s) self w1 l ∧
            (is_Some (index self) → safe_calls l).
Proof.
  destruct (index self) as [idx|] eqn:Hidx.
  - destruct (as_query_engine idx 5 japanese_fallback_template w) as [[eng|e] w1] eqn:Heng.
    + destruct (query eng question w1) as [[resp|e] w2] eqn:Hq.
      * destruct (fallback_search_success _ _ _ _ _ _ _ _ Hidx Heng Hq)
          as (jr & w3 & l3 & si & w4 & l4 & Hf & Hs & ->).
        destruct (force_japanese_response_returns (str_response resp) self w2)
          as (? & ? & ? & Hf' & ?).
        destruct (get_source_info_returns question self w3) as (? & ? & ? & Hs' & ?).
        rewrite Hf in Hf'. rewrite Hs in Hs'. simplify_eq.
        eexists _, _, _. split; [done|]. intros _. safe.
      * unfold _fallback_search, index_as_query_engine. unfold_monad.
        rewrite Hidx. simpl. rewrite Heng. simpl. rewrite Hq. simpl.
        eexists _, _, _. split; [done|]. intros _. safe.
    + unfold _fallback_search, index_as_query_engine. unfold_monad.
      rewrite Hidx. simpl. rewrite Heng. simpl.
      eexists _, _, _. split; [done|]. intros _. safe.
  - unfold _fallback_search, index_as_query_engine. unfold_monad.
    rewrite Hidx. simpl. eexists _, _, _. split; [done|]. by intros [? ?].
Qed.


Lemma ask_with_react_query_raises question self w engine e w1 :
  agent self = Some engine →
  query engine question w = (Err e, w1) →
  ask_with_react question self w =
  Run (out (_fallback_search question self w1))
      (obj (_fallback_search question self w1))
      (world (_fallback_search question self w1))
      ([Ui StSpinner "🤖 PDF検索で分析中..."; Call (Query engine question);
        fallback_notice e] ++ log (_fallback_search question self w1)).
Proof.
  intros Hagent Hq. unfold ask_with_react, fallback_notice. unfold_monad.
  rewrite Hagent. simpl. rewrite Hq. simpl.
  destruct (_ || _); simpl;
    by destruct (_fallback_search question self w1) as [o s1 w2 l].
Qed.

Lemma ask_with_react_returns question self w :
  ∃ s w1 l, ask_with_react question self w = Run (Ret s) self w1 l ∧
            ((is_Some (agent self) → is_Some (index self)) → safe_calls l).
Proof.
  destruct (agent self) as [engine|] eqn:Hagent.
  - destruct (query engine question w) as [[resp|e] w1] eqn:Hq.
    + destruct (force_japanese_response_returns (str_response resp) self w1)
        as (jr & w2 & l2 & Hf & ?).
      destruct (get_source_info_returns question self w2) as (si & w3 & l3 & Hs & ?).
      unfold ask_with_react. unfold_monad.
      rewrite Hagent. simpl. rewrite Hq. simpl. rewrite Hf. simpl. rewrite Hs. simpl.
      eexists _, _, _. split; [done|]. intros _. safe.
    + rewrite (ask_with_react_query_raises _ _ _ _ _ _ Hagent Hq).
      destruct (fallback_search_returns question self w1) as (s & w2 & l & -> & Hsafe).
      simpl. eexists _, _, _. split; [done|]. intros Hinv.
      unfold fallback_notice. destruct (_ || _); safe; apply Hsafe, Hinv; done.
  - unfold ask_with_react. unfold_monad. rewrite Hagent. simpl.
    eexists _, _, _. split; [done|]. intros _. safe.
Qed.

Lemma shows_error_here msg l : shows_error (Ui StError msg :: l).
Proof. exists msg. apply list_elem_of_here. Qed.

Lemma shows_error_cons ev l : shows_error l → shows_error (ev :: l).
Proof. intros [msg H]. exists msg. by apply list_elem_of_further. Qed.

Lemma shows_error_app_l l1 l2 : shows_error l1 → shows_error (l1 ++ l2).
Proof. intros [msg H]. exists msg. apply elem_of_app. by left. Qed.

Lemma shows_error_app_r l1 l2 : shows_error l2 → shows_error (l1 ++ l2).
Proof. intros [msg H]. exists msg. apply elem_of_app. by right. Qed.

Create HintDb shown.
#[local] Hint Resolve shows_error_here shows_error_cons shows_error_app_l
  shows_error_app_r : shown.

Ltac shown := solve [eauto 40 with shown].

(** [_create_react_agent] always returns; it never touches the index, and it
    assigns the agent exactly when it returns [True]. *)
Lemma create_react_agent_spec self w :
  ∃ b self1 w1 l,
    _create_react_agent self w = Run (Ret b) self1 w1 l ∧
    pdf_folder self1 = pdf_folder self ∧ index self1 = index self ∧
    (b = true →
       ∃ idx engine w2,
         index self = Some idx ∧
         as_query_engine idx 3 japanese_template w = (Ok engine, w2) ∧
         agent self1 = Some engine) ∧
    (b = false → agent self1 = agent self ∧ shows_error l).
Proof.
  unfold _create_react_agent, index_as_query_engine. unfold_monad.
  destruct self as [folder ag [idx|]]; simpl.
  - step.
    + step.
      * step.
        -- step.
           ++ eexists _, _, _, _. split_and!; try done.
              intros _. eexists _, _, _. split_and!; [done|eassumption|done].
           ++ case_decide; simpl.
              ** eexists _, _, _, _. split_and!; try done.
              intros _. eexists _, _, _. split_and!; [done|eassumption|done].
              ** eexists _, _, _, _. split_and!; try done. intros _. split; [done|shown].
        -- eexists _, _, _, _. split_and!; try done. intros _. split; [done|shown].
      * eexists _, _, _, _. split_and!; try done. intros _. split; [done|shown].
    + eexists _, _, _, _. split_and!; try done. intros _. split; [done|shown].
  - eexists _, _, _, _. split_and!; try done. intros _. split; [done|shown].
Qed.


(** With no file ending in [.pdf], loading stops before any document is read
    or any index is built. *)
Lemma load_pdfs_no_pdf self w names w1 :
  os_path_exists (pdf_folder self) w = true →
  os_listdir (pdf_folder self) w = (Ok names, w1) →
  filter is_pdf names = [] →
  load_pdfs_with_react self w =
  Run (Ret false) self w1
    [Call (ListDir (pdf_folder self)); Ui StError "❌ PDFファイルが見つかりません"].
Proof.
  intros Hex Hls Hnone. unfold load_pdfs_with_react. unfold_monad.
  rewrite Hex. simpl. rewrite Hls. simpl.
  unfold is_pdf in Hnone. by rewrite Hnone.
Qed.

Lemma load_pdfs_with_react_spec self w :
  ∃ b self1 w1 l,
    load_pdfs_with_react self w = Run (Ret b) self1 w1 l ∧
    pdf_folder self1 = pdf_folder self ∧
    (b = true →
       os_path_exists (pdf_folder self) w = true ∧
       ∃ names w2 docs w3 idx w4 engine w5,
         os_listdir (pdf_folder self) w = (Ok names, w2) ∧
         filter is_pdf names ≠ [] ∧
         load_data (pdf_folder self) w2 = (Ok docs, w3) ∧
         from_documents docs w3 = (Ok idx, w4) ∧
         as_query_engine idx 3 japanese_template w4 = (Ok engine, w5) ∧
         index self1 = Some idx ∧ agent self1 = Some engine) ∧
    (b = false → shows_error l ∧ agent self1 = agent self) ∧
    (index self1 = index self ∨ is_Some (index self1)).
Proof.
  unfold load_pdfs_with_react. unfold_monad.
  destruct self as [folder ag ix]; simpl.
  destruct (os_path_exists folder w) eqn:Hex; simpl.
  2:{ eexists _, _, _, _. split_and!; try done; [|by left]. intros _. split; [shown|done]. }
  step.
  2:{ eexists _, _, _, _. split_and!; try done; [|by left]. intros _. split; [shown|done]. }
  destruct (filter _ r) as [|f fs] eqn:Hfilter; simpl.
  { eexists _, _, _, _. split_and!; try done; [|by left]. intros _. split; [shown|done]. }
  rewrite (for_each_emits (f :: fs) _ (λ pdf_file, [Ui StWrite ("  • " +:+ pdf_file)]));
    [|reflexivity].
  simpl. step.
  2:{ eexists _, _, _, _. split_and!; try done; [|by left]. intros _. split; [shown|done]. }
  step.
  2:{ eexists _, _, _, _. split_and!; try done; [|by left]. intros _. split; [shown|done]. }
  destruct (create_react_agent_spec {| pdf_folder := folder; agent := ag; index := Some r1 |} w2)
    as (b & self1 & w3 & l & -> & Hfolder & Hindex & Htrue & Hfalse).
  simpl in *. destruct b; simpl.
  - destruct (Htrue eq_refl) as (idx & engine & w4 & [= <-] & Heng & Hagent).
    eexists _, _, _, _. split_and!; try done; [|right; rewrite Hindex; eauto].
    intros _. split; [done|].
    exists r, w0, r0, w1, r1, w2, engine, w4. unfold is_pdf. rewrite Hfilter. done.
  - destruct (Hfalse eq_refl) as (Hagent & Hshown).
    eexists _, _, _, _. split_and!; try done; [|right; rewrite Hindex; eauto].
    intros _. split; [shown|done].
Qed.


(** The agent-memory part of the clear handler always returns and leaves
    folder and index alone. *)
Lemma clear_agent_memory_returns self w :
  ∃ self1 w1 l,
    clear_agent_memory self w = Run (Ret tt) self1 w1 l ∧
    pdf_folder self1 = pdf_folder self ∧ index self1 = index self ∧
    (agent self1 = agent self ∨ (is_Some (agent self1) ∧ is_Some (index self))).
Proof.
  unfold clear_agent_memory. unfold_monad.
  destruct (agent self) as [engine|] eqn:Hagent; simpl.
  2:{ eexists _, _, _. split_and!; try done; try (by left). }
  assert (Hrebuild : ∀ w0, ∃ b self1 w1 l,
            _create_react_agent self w0 = Run (Ret b) self1 w1 l ∧
            pdf_folder self1 = pdf_folder self ∧ index self1 = index self ∧
            (agent self1 = Some engine ∨ (is_Some (agent self1) ∧ is_Some (index self)))).
  { intros w0.
    destruct (create_react_agent_spec self w0) as (b & s1 & w1 & l & Hrun & ? & ? & Ht & Hf).
    exists b, s1, w1, l. split_and!; try done. destruct b.
    - destruct (Ht eq_refl) as (? & ? & ? & -> & _ & ->). right. eauto.
    - destruct (Hf eq_refl) as [-> _]. by left. }
  destruct (engine_memory engine) as [memory|e]; simpl.
  2:{ destruct (Hrebuild w) as (b & s1 & w1 & l & -> & ? & ? & ?). simpl.
      eexists _, _, _. by split_and!. }
  destruct (has_reset memory); simpl.
  { step; [destruct r; eexists _, _, _; split_and!; try done; try (by left)|].
    destruct (Hrebuild w0) as (b & s1 & w1 & l & -> & ? & ? & ?). simpl.
    eexists _, _, _. by split_and!. }
  destruct (has_clear memory); simpl.
  { step; [destruct r; eexists _, _, _; split_and!; try done; try (by left)|].
    destruct (Hrebuild w0) as (b & s1 & w1 & l & -> & ? & ? & ?). simpl.
    eexists _, _, _. by split_and!. }
  destruct (has_chat_history memory); simpl.
  { step; [destruct r; eexists _, _, _; split_and!; try done; try (by left)|].
    destruct (Hrebuild w0) as (b & s1 & w1 & l & -> & ? & ? & ?). simpl.
    eexists _, _, _. by split_and!. }
  destruct (Hrebuild w) as (b & s1 & w1 & l & -> & ? & ? & ?). simpl.
  eexists _, _, _. by split_and!.
Qed.

(** *** The page script *)

#[local] Arguments features_info : simpl never.
#[local] Arguments page_header : simpl never.

(** Pressing the initialisation button while the session is not
    initialised. *)
Lemma main_init ui self ms w :
  has_api_key w → init_button ui = true →
  ∃ b self1 w1 l,
    load_pdfs_with_react self w = Run (Ret b) self1 w1 l ∧
    main ui {| chatbot := Some self; messages := Some ms; initialized := Some false |} w =
    Run (if b then Ctl Rerun else Ret tt)
        {| chatbot := Some self1; messages := Some ms; initialized := Some b |} w1
        (page_header ++
         [Ui StInfo "📁 PDFファイルを読み込んでチャットボットを初期化してください"] ++ l).
Proof.
  intros Hkey Hbutton.
  destruct (load_pdfs_with_react_spec self w) as (b & self1 & w1 & l & Hload & _).
  exists b, self1, w1, l. split; [done|].
  unfold_main. unfold_monad. simpl. rewrite Hkey, Hbutton. simpl.
  rewrite Hload. simpl. destruct b; simpl; rewrite ?app_nil_r; reflexivity.
Qed.

(** Pressing the clear button while the session is initialised. *)
Lemma main_clear ui self ms w :
  has_api_key w → truthy (chat_input ui) = false → clear_button ui = true →
  ∃ self1 w1 l,
    clear_agent_memory self w = Run (Ret tt) self1 w1 l ∧
    main ui {| chatbot := Some self; messages := Some ms; initialized := Some true |} w =
    Run (Ctl Rerun)
        {| chatbot := Some self1; messages := Some []; initialized := Some true |} w1
        (page_header ++ history_events ms ++ l).
Proof.
  intros Hkey Hchat Hbutton.
  destruct (clear_agent_memory_returns self w) as (self1 & w1 & l & Hclear & _).
  exists self1, w1, l. split; [done|].
  unfold_main. unfold_monad. simpl. rewrite Hkey, Hchat, Hbutton. simpl.
  rewrite (for_each_emits ms _
    (λ m, [Ui StChatMessage (role_name (msg_role m)); Ui StMarkdown (content m)]));
    [|reflexivity].
  simpl. rewrite Hclear. simpl. by rewrite app_nil_r.
Qed.

(** Submitting a question while the session is initialised. *)
Lemma main_submit ui prompt self ms w :
  has_api_key w → chat_input ui = Some prompt → prompt ≠ EmptyString → clear_button ui = false →
  ∃ response w1 l,
    ask_with_react prompt self w = Run (Ret response) self w1 l ∧
    let r := main ui {| chatbot := Some self; messages := Some ms;
                        initialized := Some true |} w in
    out r = Ret tt ∧
    obj r = {| chatbot := Some self;
               messages := Some (ms ++ [Message User prompt; Message Assistant response]);
               initialized := Some true |} ∧
    world r = w1.
Proof.
  intros Hkey Hchat Hprompt Hbutton.
  destruct (ask_with_react_returns prompt self w) as (response & w1 & l & Hask & _).
  exists response, w1, l. split; [done|].
  unfold_main. unfold_monad. simpl. rewrite Hkey, Hchat, Hbutton. simpl.
  destruct prompt as [|c prompt]; [done|]. simpl.
  rewrite (for_each_emits ms _
    (λ m, [Ui StChatMessage (role_name (msg_role m)); Ui StMarkdown (content m)]));
    [|reflexivity].
  simpl. rewrite Hask. simpl.
  destruct (_contains_english response); simpl; rewrite <- app_assoc; done.
Qed.


(** *** Citation lines *)







(** *** The memory part of the clear handler, case by case *)


(** *** The agent is only ever set on an object that has an index *)

Lemma after_op_agent_has_index op self w :
  agent_has_index self → agent_has_index (after_op op self w).
Proof.
  unfold agent_has_index. intros Hinv. destruct op as [|question| |]; simpl.
  - destruct (load_pdfs_with_react_spec self w)
      as (b & self1 & w1 & l & -> & _ & Htrue & Hfalse & Hindex). simpl.
    destruct b.
    + destruct (Htrue eq_refl) as (_ & ? & ? & ? & ? & idx & ? & ? & ? & _ & _ & _ & _ & _ & -> & _).
      eauto.
    + destruct (Hfalse eq_refl) as [_ ->]. destruct Hindex as [->|?]; done.
  - by destruct (ask_with_react_returns question self w) as (s & w1 & l & -> & _).
  - destruct (clear_agent_memory_returns self w)
      as (self1 & w1 & l & -> & _ & Hindex & Hagent). simpl.
    rewrite Hindex. destruct Hagent as [->|[_ ?]]; done.
  - destruct (create_react_agent_spec self w)
      as (b & self1 & w1 & l & -> & _ & Hindex & Htrue & Hfalse). simpl.
    rewrite Hindex. destruct b.
    + destruct (Htrue eq_refl) as (idx & ? & ? & -> & _). eauto.
    + by destruct (Hfalse eq_refl) as [-> _].
Qed.

Lemma reachable_agent_has_index self : reachable self → agent_has_index self.
Proof.
  induction 1 as [folder w self Hnew|self op w _ IH].
  - unfold new_bot in Hnew. unfold_monad. simpl in Hnew.
    destruct (openai_llm w) as [[[]|e] w1]; simpl in Hnew; [|done].
    inversion Hnew; subst. by intros [? ?].
  - by apply after_op_agent_has_index.
Qed.

Lemma safe_calls_not_elem l top_k template :
  safe_calls l → AsQueryEngine None top_k template ∉ calls l.
Proof.
  unfold safe_calls. rewrite Forall_forall. intros Hsafe Hin.
  by apply Hsafe in Hin.
Qed.


(** The fallback path starts by asking the index for an engine with the
    wider top-k and the fallback template. *)
Lemma fallback_search_first_call question self w :
  head (calls (log (_fallback_search question self w))) =
  Some (AsQueryEngine (index self) 5 japanese_fallback_template).
Proof.
  destruct (index self) as [idx|] eqn:Hidx.
  - destruct (as_query_engine idx 5 japanese_fallback_template w) as [[eng|e] w1] eqn:Heng.
    + destruct (query eng question w1) as [[resp|e] w2] eqn:Hq.
      * by destruct (fallback_search_success _ _ _ _ _ _ _ _ Hidx Heng Hq)
          as (jr & w3 & l3 & si & w4 & l4 & Hf & Hs & ->).
      * unfold _fallback_search, index_as_query_engine. unfold_monad.
        rewrite Hidx. simpl. rewrite Heng. simpl. by rewrite Hq.
    + unfold _fallback_search, index_as_query_engine. unfold_monad.
      rewrite Hidx. simpl. by rewrite Heng.
  - unfold _fallback_search, index_as_query_engine. unfold_monad.
    by rewrite Hidx.
Qed.




(** A run of the page without a button press leaves the session alone. *)
Lemma main_idle ui self ms w :
  has_api_key w → init_button ui = false →
  main ui (uninitialized_session self ms) w =
  Run (Ret tt) (uninitialized_session self ms) w
    (page_header ++ [Ui StInfo "📁 PDFファイルを読み込んでチャットボットを初期化してください"]).
Proof.
  intros Hkey Hbutton. unfold uninitialized_session.
  unfold_main. unfold_monad. simpl. by rewrite Hkey, Hbutton.
Qed.

Lemma calls_app l1 l2 : calls (l1 ++ l2) = calls l1 ++ calls l2.
Proof. apply omap_app. Qed.

Lemma calls_history_events ms : calls (history_events ms) = [].
Proof. induction ms as [|m ms IH]; [done|]. exact IH. Qed.

(** Once the index is built, the load is the engine creation on the object
    that holds it. *)
Lemma load_pdfs_index_built self w names w1 docs w2 idx w3 :
  os_path_exists (pdf_folder self) w = true →
  os_listdir (pdf_folder self) w = (Ok names, w1) →
  filter is_pdf names ≠ [] →
  load_data (pdf_folder self) w1 = (Ok docs, w2) →
  from_documents docs w2 = (Ok idx, w3) →
  let indexed := {| pdf_folder := pdf_folder self; agent := agent self; index := Some idx |} in
  out (load_pdfs_with_react self w) = out (_create_react_agent indexed w3) ∧
  obj (load_pdfs_with_react self w) = obj (_create_react_agent indexed w3) ∧
  world (load_pdfs_with_react self w) = world (_create_react_agent indexed w3) ∧
  index (obj (load_pdfs_with_react self w)) = Some idx.
Proof.
  intros Hex Hls Hpdf Hload Hindex indexed.
  destruct (create_react_agent_spec indexed w3)
    as (b & self1 & w4 & l & Hrun & _ & Hkept & _).
  rewrite Hrun. unfold load_pdfs_with_react. unfold_monad.
  rewrite Hex. simpl. rewrite Hls. simpl.
  unfold is_pdf in Hpdf. destruct (filter _ names) as [|f fs] eqn:Hfilter; [done|].
  rewrite (for_each_emits (f :: fs) _ (λ pdf_file, [Ui StWrite ("  • " +:+ pdf_file)]));
    [|reflexivity].
  simpl. rewrite Hload. simpl. rewrite Hindex. simpl.
  fold indexed. rewrite Hrun. simpl. by destruct b.
Qed.

End ProgramFacts.

(** * The claims of the specification *)

Section Claims.
Context {E : Externals}.

#[local] Arguments translate_prompt : simpl never.
#[local] Arguments String.append : simpl never.
#[local] Arguments _contains_english : simpl never.

Lemma translate_prompt_embeds text :
  translate_prompt text = prompt_before +:+ text +:+ prompt_after.
Proof.
  unfold translate_prompt, prompt_before, prompt_after.
  rewrite !append_assoc. reflexivity.
Qed.

(** C1: an answer in which every maximal run of three or more ASCII letters
    is an entry of the allow-list (or which has no such run) is returned
    unchanged by the conformance filter, which then makes no outbound call
    and shows nothing. *)
Theorem C1_conformant_answer_unchanged text self w :
  conformant text →
  _force_japanese_response text self w = Run (Ret text) self w [].
Proof.
  intros Hconf%contains_english_false.
  by rewrite force_japanese_response_run, Hconf.
Qed.

(** C2: an answer with a maximal run of three or more ASCII letters that is
    not an allow-list entry is classified as English; the filter makes
    exactly one outbound call, the completion of the rewrite prompt, which
    contains the original answer; and when that call returns, the filter
    returns its stringified output as it is. *)
Theorem C2_disallowed_run_is_rewritten text self w :
  has_disallowed_run text →
  _contains_english text = true ∧
  calls (log (_force_japanese_response text self w)) =
    [Complete (translate_prompt text)] ∧
  translate_prompt text = prompt_before +:+ text +:+ prompt_after ∧
  Text.contains (translate_prompt text) text = true ∧
  ∀ resp w1,
    llm_complete (translate_prompt text) w = (Ok resp, w1) →
    _force_japanese_response text self w =
    Run (Ret (str_completion resp)) self w1
      [Ui StSpinner "🔄 日本語に変換中..."; Call (Complete (translate_prompt text))].
Proof.
  intros Hrun%contains_english_true.
  rewrite force_japanese_response_run, Hrun. split_and!.
  - done.
  - by destruct (llm_complete _ w) as [[resp|e] w1].
  - apply translate_prompt_embeds.
  - rewrite translate_prompt_embeds. apply contains_app.
  - by intros resp w1 ->.
Qed.

(** C3: when the rewrite completion raises, the filter returns the original
    answer; the exception does not leave the filter, and all that is shown
    besides the progress indicator is one warning carrying the error
    text. *)
Theorem C3_rewrite_failure_keeps_answer text self w e w1 :
  llm_complete (translate_prompt text) w = (Err e, w1) →
  out (_force_japanese_response text self w) = Ret text ∧
  obj (_force_japanese_response text self w) = self ∧
  (_contains_english text = true →
     _force_japanese_response text self w =
     Run (Ret text) self w1
       [Ui StSpinner "🔄 日本語に変換中..."; Call (Complete (translate_prompt text));
        Ui StWarning ("日本語変換エラー: " +:+ str_exn e)]) ∧
  (_contains_english text = false →
     _force_japanese_response text self w = Run (Ret text) self w []).
Proof.
  intros Hfail. rewrite force_japanese_response_run, Hfail.
  by destruct (_contains_english text).
Qed.

(** C7: before initialisation, when no agent has been built,
    [ask_with_react] returns the message that tells the user to press the
    PDF-loading button; it shows one error, makes no outbound call, leaves
    the object and the outside world as they were, and does not raise. *)
Theorem C7_ask_before_initialization question self w :
  agent self = None →
  ask_with_react question self w =
    Run (Ret not_initialized_message) self w
      [Ui StError "❌ エラー: エージェントが初期化されていません。PDFファイルの読み込みを行ってください。"] ∧
  calls (log (ask_with_react question self w)) = [] ∧
  Text.contains not_initialized_message "PDFファイルの読み込みボタンを押してください" = true.
Proof.
  intros Hagent.
  assert (Hrun : ask_with_react question self w =
    Run (Ret not_initialized_message) self w
      [Ui StError "❌ エラー: エージェントが初期化されていません。PDFファイルの読み込みを行ってください。"]).
  { unfold ask_with_react, mbind, M_bind, get. rewrite Hagent. reflexivity. }
  rewrite Hrun. split_and!; [done|done|]. vm_compute. reflexivity.
Qed.

(** C9: on every input [_contains_english] agrees with the same function
    whose allow-list is only ['pdf'], ['PDF'] and ['API']; a match has at
    least three letters and only letters, so ['au'], ['DC'] and
    ['auコマース'] never equal one.  Case variants that are not listed, such
    as ['Pdf'] and ['api'], count as English. *)
Theorem C9_effective_allow_list text :
  _contains_english text = contains_english_with effective_exceptions text ∧
  (∀ m, m ∈ Re.re_findall text → m ≠ "au" ∧ m ≠ "DC" ∧ m ≠ "auコマース") ∧
  _contains_english "Pdf" = true ∧
  _contains_english "api" = true.
Proof.
  split_and!.
  - unfold _contains_english, contains_english_with.
    rewrite (list_filter_iff_elem (λ m, m ∉ japanese_exceptions)
               (λ m, m ∉ effective_exceptions)); [done|].
    intros m Hm. by apply (exceptions_effective text).
  - intros m Hm. apply (re_findall_match text) in Hm as [Hlen Hletters].
    split_and!; intros ->; simpl in *; try lia; discriminate.
  - vm_compute. reflexivity.
  - vm_compute. reflexivity.
Qed.

(** C4: whenever the primary query of [ask_with_react] raises, whatever the
    error text, the result of [ask_with_react] is the result of the fallback
    path, run after one notice (a warning for the iteration-limit signature,
    an error otherwise); the fallback path asks the index for an engine with
    top-k 5, and when its own engine and query succeed the answer starts
    with the direct-search marker. *)
Theorem C4_query_failure_takes_fallback question self w engine e w1 :
  agent self = Some engine →
  query engine question w = (Err e, w1) →
  ask_with_react question self w =
    Run (out (_fallback_search question self w1))
        (obj (_fallback_search question self w1))
        (world (_fallback_search question self w1))
        ([Ui StSpinner "🤖 PDF検索で分析中..."; Call (Query engine question);
          fallback_notice e] ++ log (_fallback_search question self w1)) ∧
  head (calls (log (_fallback_search question self w1))) =
    Some (AsQueryEngine (index self) 5 japanese_fallback_template) ∧
  (∀ idx fallback_engine w2 resp w3,
     index self = Some idx →
     as_query_engine idx 5 japanese_fallback_template w1 = (Ok fallback_engine, w2) →
     query fallback_engine question w2 = (Ok resp, w3) →
     ∃ body,
       out (ask_with_react question self w) = Ret (direct_search_marker +:+ body) ∧
       direct_search_marker = "【直接検索による回答】").
Proof.
  intros Hagent Hq.
  rewrite (ask_with_react_query_raises _ _ _ _ _ _ Hagent Hq).
  split_and!; [done|apply fallback_search_first_call|].
  intros idx eng w2 resp w3 Hidx Heng Hq2.
  destruct (fallback_search_success _ _ _ _ _ _ _ _ Hidx Heng Hq2)
    as (jr & w4 & l4 & si & w5 & l5 & _ & _ & ->).
  simpl. eauto.
Qed.


(** C10: on every chatbot object that exists after construction and any
    sequence of loads, questions, clear-triggered memory resets and engine
    rebuilds, an agent is set only if an index is set; hence no run of
    [ask_with_react], and no run of [_fallback_search] on an object with an
    agent, asks a [None] index for a query engine, and without an agent
    [ask_with_react] makes no outbound call at all. *)
Theorem C10_agent_implies_index self :
  reachable self →
  (agent self ≠ None → index self ≠ None) ∧
  (∀ question w top_k template,
     AsQueryEngine None top_k template ∉ calls (log (ask_with_react question self w))) ∧
  (∀ question w top_k template,
     agent self ≠ None →
     AsQueryEngine None top_k template ∉ calls (log (_fallback_search question self w))) ∧
  (∀ question w,
     agent self = None → calls (log (ask_with_react question self w)) = []).
Proof.
  intros Hinv%reachable_agent_has_index. unfold agent_has_index in Hinv.
  split_and!.
  - intros Hagent Hindex. rewrite Hindex in Hinv.
    destruct (agent self); [|done]. by destruct Hinv as [? [=]].
  - intros question w top_k template.
    destruct (ask_with_react_returns question self w) as (s & w1 & l & -> & Hsafe).
    by apply safe_calls_not_elem, Hsafe.
  - intros question w top_k template Hagent.
    destruct (fallback_search_returns question self w) as (s & w1 & l & -> & Hsafe).
    apply safe_calls_not_elem, Hsafe, Hinv. by destruct (agent self).
  - intros question w Hagent.
    unfold ask_with_react, mbind, M_bind, get. by rewrite Hagent.
Qed.

(** C6 (as amended): the session leaves Uninitialized only when the
    initialisation button was pressed and [load_pdfs_with_react] went all the
    way: the folder exists, some file name ends in [.pdf], loading the
    documents and building the index returned without raising (how many
    documents were loaded is not checked), and the query engine was built;
    agent and index are then set and the script reruns.  When the sequence
    fails, the flag stays [False], an error is shown, and history and agent
    are as before; an index built before the failure stays on the object.
    When no file name ends in [.pdf], the session is unchanged and no index
    is built. *)
Theorem C6_initialization_transition ui self ms w :
  has_api_key w →
  (initialized (obj (main ui (uninitialized_session self ms) w)) = Some true →
     init_button ui = true ∧
     os_path_exists (pdf_folder self) w = true ∧
     ∃ names w1 docs w2 idx w3 engine w4,
       os_listdir (pdf_folder self) w = (Ok names, w1) ∧
       filter is_pdf names ≠ [] ∧
       load_data (pdf_folder self) w1 = (Ok docs, w2) ∧
       from_documents docs w2 = (Ok idx, w3) ∧
       as_query_engine idx 3 japanese_template w3 = (Ok engine, w4) ∧
       (chatbot (obj (main ui (uninitialized_session self ms) w)) ≫= index) = Some idx ∧
       (chatbot (obj (main ui (uninitialized_session self ms) w)) ≫= agent) = Some engine ∧
       out (main ui (uninitialized_session self ms) w) = Ctl Rerun) ∧
  (init_button ui = true →
   initialized (obj (main ui (uninitialized_session self ms) w)) ≠ Some true →
     initialized (obj (main ui (uninitialized_session self ms) w)) = Some false ∧
     out (main ui (uninitialized_session self ms) w) = Ret tt ∧
     shows_error (log (main ui (uninitialized_session self ms) w)) ∧
     messages (obj (main ui (uninitialized_session self ms) w)) = Some ms ∧
     (chatbot (obj (main ui (uninitialized_session self ms) w)) ≫= agent) = agent self) ∧
  (∀ names w1,
     init_button ui = true →
     os_path_exists (pdf_folder self) w = true →
     os_listdir (pdf_folder self) w = (Ok names, w1) →
     filter is_pdf names = [] →
     obj (main ui (uninitialized_session self ms) w) = uninitialized_session self ms ∧
     indexed_documents (log (main ui (uninitialized_session self ms) w)) = []) ∧
  (∀ names w1 docs w2 idx w3,
     init_button ui = true →
     os_path_exists (pdf_folder self) w = true →
     os_listdir (pdf_folder self) w = (Ok names, w1) →
     filter is_pdf names ≠ [] →
     load_data (pdf_folder self) w1 = (Ok docs, w2) →
     from_documents docs w2 = (Ok idx, w3) →
     (chatbot (obj (main ui (uninitialized_session self ms) w)) ≫= index) = Some idx ∧
     (∀ e w4,
        as_query_engine idx 3 japanese_template w3 = (Err e, w4) →
        obj (main ui (uninitialized_session self ms) w) =
        uninitialized_session
          {| pdf_folder := pdf_folder self; agent := agent self; index := Some idx |} ms)).
Proof.
  intros Hkey. destruct (init_button ui) eqn:Hbutton.
  - destruct (main_init ui self ms w Hkey Hbutton) as (b & self1 & w1 & l & Hload & Hmain).
    fold (uninitialized_session self ms) in Hmain. rewrite Hmain. simpl.
    destruct (load_pdfs_with_react_spec self w)
      as (b' & self1' & w1' & l' & Hload' & _ & Htrue & Hfalse & _).
    rewrite Hload in Hload'. inversion Hload'; subst b' self1' w1' l'. clear Hload'.
    split_and!.
    + intros [= ->].
      destruct (Htrue eq_refl)
        as (Hex & names & w2 & docs & w3 & idx & w4 & engine & w5 &
            Hls & Hpdf & Hdocs & Hidx & Heng & Hindex & Hagent).
      split_and!; [done..|].
      exists names, w2, docs, w3, idx, w4, engine, w5. by split_and!.
    + intros _ Hnot. destruct b; [done|].
      destruct (Hfalse eq_refl) as [Hshown Hagent].
      split_and!; try done.
      repeat apply shows_error_cons. done.
    + intros names w2 _ Hex Hls Hnone.
      rewrite (load_pdfs_no_pdf _ _ _ _ Hex Hls Hnone) in Hload.
      by inversion Hload; subst b self1 w1 l.
    + intros names w2 docs w3 idx w4 _ Hex Hls Hpdf Hdocs Hidx.
      destruct (load_pdfs_index_built self w _ _ _ _ _ _ Hex Hls Hpdf Hdocs Hidx)
        as (Hout & Hobj & _ & Hindex).
      rewrite Hload in Hout, Hobj, Hindex. simpl in Hout, Hobj, Hindex.
      split; [done|]. intros e w5 Heng.
      destruct (create_react_agent_spec
                  {| pdf_folder := pdf_folder self; agent := agent self;
                     index := Some idx |} w4)
        as (b' & self2 & w6 & l2 & Hcreate & Hfolder & Hkept & Hbuilt & Hfailed).
      rewrite Hcreate in Hout, Hobj. simpl in Hout, Hobj, Hfolder, Hkept.
      inversion Hout; subst b'. subst self2.
      destruct b.
      * destruct (Hbuilt eq_refl) as (idx' & engine & w7 & [= <-] & Hok & _).
        rewrite Heng in Hok. discriminate.
      * destruct (Hfailed eq_refl) as [Hagent _]. simpl in Hagent.
        unfold uninitialized_session. f_equal.
        destruct self1 as [folder1 agent1 index1]. simpl in *. by subst.
  - rewrite (main_idle ui self ms w Hkey Hbutton). simpl. by split_and!.
Qed.


End Claims.

Lemma C1_witness :
  conformant "PDFとAPIの説明: au DC auコマース" ∧
  _force_japanese_response (E := Demo.externals) "PDFとAPIの説明: au DC auコマース" Demo.ready_bot Demo.office =
  Run (Ret "PDFとAPIの説明: au DC auコマース") Demo.ready_bot Demo.office [].
Proof.
  assert (H : conformant "PDFとAPIの説明: au DC auコマース").
  { apply contains_english_false. vm_compute. reflexivity. }
  split; [exact H|].
  exact (C1_conformant_answer_unchanged _ Demo.ready_bot Demo.office H).
Defined.

Lemma C2_witness :
  has_disallowed_run "abc ABC" ∧
  _force_japanese_response (E := Demo.externals) "abc ABC" Demo.ready_bot Demo.office =
  Run (Ret "これは日本語です。") Demo.ready_bot Demo.office
    [Ui StSpinner "🔄 日本語に変換中..."; Call (Complete (translate_prompt "abc ABC"))].
Proof.
  assert (H : has_disallowed_run "abc ABC").
  { apply contains_english_true. vm_compute. reflexivity. }
  split; [exact H|].
  destruct (C2_disallowed_run_is_rewritten "abc ABC" Demo.ready_bot Demo.office H)
    as (_ & _ & _ & _ & Hret).
  apply (Hret "これは日本語です。"). reflexivity.
Defined.

Lemma C3_witness :
  _force_japanese_response (E := Demo.externals) "abc ABC" Demo.ready_bot Demo.rewrite_fails =
  Run (Ret "abc ABC") Demo.ready_bot Demo.rewrite_fails
    [Ui StSpinner "🔄 日本語に変換中..."; Call (Complete (translate_prompt "abc ABC"));
     Ui StWarning "日本語変換エラー: Rate limit exceeded"].
Proof.
  destruct (C3_rewrite_failure_keeps_answer (E := Demo.externals) "abc ABC" Demo.ready_bot
              Demo.rewrite_fails (Exn OtherError "Rate limit exceeded") Demo.rewrite_fails
              eq_refl) as (_ & _ & Hrun & _).
  apply Hrun. vm_compute. reflexivity.
Defined.

Lemma C7_witness :
  ask_with_react (E := Demo.externals) "第一条は?" Demo.fresh_bot Demo.office =
  Run (Ret not_initialized_message) Demo.fresh_bot Demo.office
    [Ui StError "❌ エラー: エージェントが初期化されていません。PDFファイルの読み込みを行ってください。"].
Proof.
  exact (proj1 (C7_ask_before_initialization "第一条は?" Demo.fresh_bot Demo.office eq_refl)).
Defined.

Lemma C4_witness :
  out (ask_with_react (E := Demo.externals) "第一条は?" Demo.ready_bot Demo.primary_gives_up) =
  out (_fallback_search (E := Demo.externals) "第一条は?" Demo.ready_bot Demo.primary_gives_up) ∧
  ∃ body,
    out (ask_with_react (E := Demo.externals) "第一条は?" Demo.ready_bot Demo.primary_gives_up) =
    Ret ("【直接検索による回答】" +:+ body).
Proof.
  destruct (C4_query_failure_takes_fallback (E := Demo.externals) "第一条は?" Demo.ready_bot
              Demo.primary_gives_up _ (Exn OtherError "Reached max iterations.")
              Demo.primary_gives_up eq_refl eq_refl) as (Hrun & _ & Hmarker).
  split; [by rewrite Hrun|].
  destruct (Hmarker ["給与規程"; "定款"]
              {| Demo.engine_top_k := 5; Demo.engine_memory_attr := Demo.no_memory |}
              Demo.primary_gives_up "第一条です。" Demo.primary_gives_up
              eq_refl eq_refl eq_refl) as (body & Hout & _).
  exists body. exact Hout.
Defined.




Lemma C10_witness :
  index (after_op (E := Demo.externals) OpLoad Demo.fresh_bot Demo.office) ≠ None.
Proof.
  apply (C10_agent_implies_index (E := Demo.externals)).
  - apply reachable_step. by apply (reachable_new (E := Demo.externals) "pdfs" Demo.office).
  - vm_compute. discriminate.
Defined.

(** C6, as first stated, fails on the code in two ways.  With a PDF file from
    which the reader extracts no document, initialisation succeeds although
    the list of documents handed to the index builder is empty; and when the
    query engine cannot be built, the flag stays [False] but the chatbot
    object is not what it was: it keeps the index that was built. *)
Lemma C6_counterexample :
  ¬ (initialized (obj (main (E := Demo.externals) Demo.press_init
                         (uninitialized_session Demo.fresh_bot []) Demo.unreadable_pdfs))
       = Some true →
     Forall (λ documents, documents ≠ [])
       (indexed_documents
          (log (main (E := Demo.externals) Demo.press_init
                  (uninitialized_session Demo.fresh_bot []) Demo.unreadable_pdfs)))) ∧
  ¬ (initialized (obj (main (E := Demo.externals) Demo.press_init
                         (uninitialized_session Demo.fresh_bot []) Demo.engine_fails))
       = Some false →
     chatbot (obj (main (E := Demo.externals) Demo.press_init
                     (uninitialized_session Demo.fresh_bot []) Demo.engine_fails))
       = Some Demo.fresh_bot).
Proof.
  split.
  - assert (Hready :
      initialized (obj (main (E := Demo.externals) Demo.press_init
                          (uninitialized_session Demo.fresh_bot []) Demo.unreadable_pdfs))
      = Some true) by (vm_compute; reflexivity).
    assert (Hdocs :
      indexed_documents
        (log (main (E := Demo.externals) Demo.press_init
                (uninitialized_session Demo.fresh_bot []) Demo.unreadable_pdfs))
      = [[]]) by (vm_compute; reflexivity).
    intros H. specialize (H Hready). rewrite Hdocs in H.
    inversion H as [|? ? Hne _]. by apply Hne.
  - assert (Hflag :
      initialized (obj (main (E := Demo.externals) Demo.press_init
                          (uninitialized_session Demo.fresh_bot []) Demo.engine_fails))
      = Some false) by (vm_compute; reflexivity).
    assert (Hindex :
      (chatbot (obj (main (E := Demo.externals) Demo.press_init
                       (uninitialized_session Demo.fresh_bot []) Demo.engine_fails))
         ≫= index) = Some ["給与規程"]) by (vm_compute; reflexivity).
    intros H. rewrite (H Hflag) in Hindex. discriminate.
Qed.

Lemma C6_witness :
  (out (main (E := Demo.externals) Demo.press_init
          (uninitialized_session Demo.fresh_bot []) Demo.office) = Ctl Rerun ∧
   (chatbot (obj (main (E := Demo.externals) Demo.press_init
                    (uninitialized_session Demo.fresh_bot []) Demo.office)) ≫= index)
     = Some ["給与規程"; "定款"]) ∧
  (initialized (obj (main (E := Demo.externals) Demo.press_init
                       (uninitialized_session Demo.fresh_bot []) Demo.no_pdf_files))
     = Some false ∧
   shows_error (log (main (E := Demo.externals) Demo.press_init
                       (uninitialized_session Demo.fresh_bot []) Demo.no_pdf_files))) ∧
  obj (main (E := Demo.externals) Demo.press_init
         (uninitialized_session Demo.fresh_bot []) Demo.engine_fails) =
    uninitialized_session Demo.index_only_bot [].
Proof.
  split; [|split].
  - destruct (C6_initialization_transition (E := Demo.externals) Demo.press_init
                Demo.fresh_bot [] Demo.office eq_refl) as (Hready & _ & _ & _).
    destruct Hready
      as (_ & _ & names & w1 & docs & w2 & idx & w3 & engine & w4 &
          Hls & _ & Hdocs & Hidx & _ & Hindex & _ & Hout);
      [vm_compute; reflexivity|].
    split; [exact Hout|].
    rewrite Hindex.
    vm_compute in Hls. inversion Hls; subst names w1.
    vm_compute in Hdocs. inversion Hdocs; subst docs w2.
    vm_compute in Hidx. inversion Hidx; subst idx w3.
    reflexivity.
  - destruct (C6_initialization_transition (E := Demo.externals) Demo.press_init
                Demo.fresh_bot [] Demo.no_pdf_files eq_refl) as (_ & Hfail & _ & _).
    destruct Hfail as (Hflag & _ & Hshown & _); [reflexivity|vm_compute; discriminate|].
    split; [exact Hflag|exact Hshown].
  - destruct (C6_initialization_transition (E := Demo.externals) Demo.press_init
                Demo.fresh_bot [] Demo.engine_fails eq_refl) as (_ & _ & _ & Hkept).
    destruct (Hkept ["kitei.pdf"] Demo.engine_fails ["給与規程"] Demo.engine_fails
                ["給与規程"] Demo.engine_fails eq_refl eq_refl eq_refl)
      as [_ Hobj]; [discriminate|reflexivity|reflexivity|].
    exact (Hobj (Exn OtherError "No API key found for OpenAI.") Demo.engine_fails eq_refl).
Defined.


(** ** More about the detector *)

Section DetectorFacts.
Import Re.

(** A maximal run never crosses a non-letter. *)
Lemma maximal_run_split l1 c l2 r :
  is_ascii_letter c = false →
  maximal_run (l1 ++ c :: l2) r ↔ maximal_run l1 r ∨ maximal_run l2 r.
Proof.
  intros Hc. split.
  - intros (pre & post & E & Hne & Hr & Hpre & Hpost).
    assert (Hnotin : c ∉ r).
    { intros Hin. apply list_elem_of_In in Hin.
      unfold all_letters in Hr. rewrite forallb_forall in Hr.
      apply Hr in Hin. congruence. }
    rewrite (List.app_assoc pre r post) in E. symmetry in E.
    apply app_eq_app in E as [l [[E1 E2]|[E1 E2]]].
    + destruct l as [|x l].
      * (* [r] ends right before the separator *)
        left. exists pre, []. rewrite app_nil_r in E1. rewrite app_nil_r, E1.
        by split_and!.
      * simpl in E2. inversion E2; subst x l2. clear E2.
        apply app_eq_app in E1 as [m [[F1 F2]|[F1 F2]]].
        -- destruct m as [|y m].
           ++ exfalso. apply Hnotin. simpl in F2. rewrite <- F2.
              apply list_elem_of_here.
           ++ (* [r] lies after the separator *)
              simpl in F2. inversion F2; subst y l. clear F2.
              right. exists m, post. rewrite <- List.app_assoc. split_and!; try done.
              intros d Hd. apply Hpre. rewrite F1, last_app_cons.
              destruct m as [|z m]; [done|]. by rewrite last_cons_cons.
        -- exfalso. apply Hnotin. rewrite F2. apply elem_of_app. right.
           apply list_elem_of_here.
    + (* [r] lies before the separator *)
      left. exists pre, l. rewrite E1, <- List.app_assoc. split_and!; try done.
      intros d Hd. destruct l as [|x l]; [done|].
      simpl in Hd. inversion Hd; subst x. apply Hpost. by rewrite E2.
  - intros [(pre & post & -> & Hne & Hr & Hpre & Hpost)
           |(pre & post & -> & Hne & Hr & Hpre & Hpost)].
    + exists pre, (post ++ c :: l2). rewrite <- !List.app_assoc. split_and!; try done.
      intros d Hd. destruct post as [|x post].
      * simpl in Hd. by inversion Hd; subst d.
      * apply Hpost. simpl in *. done.
    + exists (l1 ++ c :: pre), post. rewrite <- List.app_assoc. split_and!; try done.
      intros d Hd. rewrite last_app_cons in Hd. destruct pre as [|x pre].
      * simpl in Hd. by inversion Hd; subst d.
      * apply Hpre. by rewrite last_cons_cons in Hd.
Qed.

Lemma list_ascii_of_string_app a b :
  list_ascii_of_string (a +:+ b) = list_ascii_of_string a ++ list_ascii_of_string b.
Proof. induction a as [|x a IH]; simpl; [done|]. by rewrite IH. Qed.

Lemma contains_english_with_sep exceptions a c b :
  is_ascii_letter c = false →
  contains_english_with exceptions (a +:+ String c b) =
  contains_english_with exceptions a || contains_english_with exceptions b.
Proof.
  intros Hc. apply eq_true_iff_eq.
  rewrite orb_true_iff, !contains_english_with_true, list_ascii_of_string_app. simpl.
  split.
  - intros (r & Hrun & Hlen & Hnot).
    apply (maximal_run_split _ _ _ _ Hc) in Hrun as [Hrun|Hrun]; eauto 6.
  - intros [(r & Hrun & Hlen & Hnot)|(r & Hrun & Hlen & Hnot)];
      exists r; (split_and!; [|done..]); apply (maximal_run_split _ _ _ _ Hc); eauto.
Qed.

Lemma count_letters_app a b :
  count_letters (a +:+ b) = count_letters a + count_letters b.
Proof.
  unfold count_letters.
  by rewrite list_ascii_of_string_app, filter_app, length_app.
Qed.

Lemma letter_not_continuation c :
  is_ascii_letter c = true → Text.is_continuation c = false.
Proof.
  destruct c as [[] [] [] [] [] [] [] []]; vm_compute; congruence.
Qed.

Lemma count_letters_le_len text : count_letters text ≤ Text.len text.
Proof.
  unfold count_letters. induction text as [|c text IH]; simpl; [lia|].
  rewrite filter_cons. destruct (decide (is_ascii_letter c = true)) as [Hc|Hc]; simpl.
  - rewrite (letter_not_continuation c Hc). lia.
  - destruct (Text.is_continuation c); lia.
Qed.

Lemma all_letters_count r :
  all_letters r = true → length (filter (λ c, is_ascii_letter c = true) r) = length r.
Proof.
  induction r as [|c r IH]; [done|]. simpl. intros [Hc Hr]%andb_true_iff.
  rewrite filter_cons, decide_True by done. simpl. by rewrite IH.
Qed.

Lemma maximal_run_count text r :
  maximal_run (list_ascii_of_string text) r → length r ≤ count_letters text.
Proof.
  intros (pre & post & E & _ & Hr & _). unfold count_letters.
  rewrite E, !filter_app, !length_app, (all_letters_count r Hr). lia.
Qed.

End DetectorFacts.

(** ** The outbound calls of a log *)

Section CallsFacts.
Context {E : Externals}.

Lemma calls_cons_call c l : calls (Call c :: l) = c :: calls l.
Proof. reflexivity. Qed.

Lemma calls_cons_ui k msg l : calls (Ui k msg :: l) = calls l.
Proof. reflexivity. Qed.

Lemma calls_nil : calls [] = [].
Proof. reflexivity. Qed.

Lemma calls_ui_lines {A} (k : ui_kind) (f : A → string) (xs : list A) :
  calls (concat ((λ x, [Ui k (f x)]) <$> xs)) = [].
Proof. induction xs as [|x xs IH]; [done|]. exact IH. Qed.

Lemma calls_fallback_notice e l : calls (fallback_notice e :: l) = calls l.
Proof. unfold fallback_notice. by destruct (_ || _). Qed.

End CallsFacts.

(** Normal form of the outbound calls of a log. *)
Ltac calls_norm :=
  repeat first
    [ rewrite calls_cons_call | rewrite calls_cons_ui | rewrite calls_app
    | rewrite calls_fallback_notice | rewrite calls_ui_lines
    | rewrite calls_history_events | rewrite calls_nil ].

(** ** More runs of the methods and of the page script *)

Section MoreProgramFacts.
Context {E : Externals}.

#[local] Arguments japanese_template : simpl never.
#[local] Arguments japanese_fallback_template : simpl never.
#[local] Arguments translate_prompt : simpl never.
#[local] Arguments String.append : simpl never.
#[local] Arguments for_each : simpl never.
#[local] Arguments _contains_english : simpl never.
#[local] Arguments _create_react_agent : simpl never.
#[local] Arguments load_pdfs_with_react : simpl never.
#[local] Arguments _force_japanese_response : simpl never.
#[local] Arguments _get_source_info : simpl never.
#[local] Arguments _fallback_search : simpl never.
#[local] Arguments ask_with_react : simpl never.
#[local] Arguments clear_agent_memory : simpl never.
#[local] Arguments features_info : simpl never.
#[local] Arguments page_header : simpl never.

(** The primary path, when the query returns. *)
Lemma ask_with_react_success question self w engine resp w1 :
  agent self = Some engine →
  query engine question w = (Ok resp, w1) →
  ∃ japanese_response w2 l2 sources_info w3 l3,
    _force_japanese_response (str_response resp) self w1 =
      Run (Ret japanese_response) self w2 l2 ∧
    _get_source_info question self w2 = Run (Ret sources_info) self w3 l3 ∧
    ask_with_react question self w =
      Run (Ret (japanese_response +:+ Text.nl +:+ Text.nl +:+ sources_info)) self w3
        ([Ui StSpinner "🤖 PDF検索で分析中..."; Call (Query engine question)] ++ l2 ++ l3).
Proof.
  intros Hagent Hq.
  destruct (force_japanese_response_returns (str_response resp) self w1)
    as (jr & w2 & l2 & Hf & _).
  destruct (get_source_info_returns question self w2) as (si & w3 & l3 & Hs & _).
  exists jr, w2, l2, si, w3, l3. split_and!; [done..|].
  unfold ask_with_react. unfold_monad.
  rewrite Hagent. simpl. rewrite Hq. simpl. rewrite Hf. simpl. rewrite Hs. simpl.
  by rewrite app_nil_r.
Qed.

Lemma ask_with_react_first_call question self w engine :
  agent self = Some engine →
  head (calls (log (ask_with_react question self w))) = Some (Query engine question).
Proof.
  intros Hagent. destruct (query engine question w) as [[resp|e] w1] eqn:Hq.
  - by destruct (ask_with_react_success _ _ _ _ _ _ Hagent Hq)
      as (? & ? & ? & ? & ? & ? & _ & _ & ->).
  - by rewrite (ask_with_react_query_raises _ _ _ _ _ _ Hagent Hq).
Qed.

(** The fallback path, when its engine or its query fails. *)
Lemma fallback_search_engine_fails question self w idx e w1 :
  index self = Some idx →
  as_query_engine idx 5 japanese_fallback_template w = (Err e, w1) →
  _fallback_search question self w =
  Run (Ret ("❌ 検索エラー: " +:+ str_exn e)) self w1
    [Call (AsQueryEngine (Some idx) 5 japanese_fallback_template)].
Proof.
  intros Hidx Heng. unfold _fallback_search, index_as_query_engine. unfold_monad.
  rewrite Hidx. simpl. by rewrite Heng.
Qed.

Lemma fallback_search_query_fails question self w idx engine w1 e w2 :
  index self = Some idx →
  as_query_engine idx 5 japanese_fallback_template w = (Ok engine, w1) →
  query engine question w1 = (Err e, w2) →
  _fallback_search question self w =
  Run (Ret ("❌ 検索エラー: " +:+ str_exn e)) self w2
    [Call (AsQueryEngine (Some idx) 5 japanese_fallback_template);
     Call (Query engine question)].
Proof.
  intros Hidx Heng Hq. unfold _fallback_search, index_as_query_engine. unfold_monad.
  rewrite Hidx. simpl. rewrite Heng. simpl. by rewrite Hq.
Qed.

(** Agent creation up to the import of the chat engine. *)
Lemma create_react_agent_import_raises self w idx engine w1 w2 w3 e w4 :
  index self = Some idx →
  as_query_engine idx 3 japanese_template w = (Ok engine, w1) →
  query_engine_tool engine w1 = (Ok tt, w2) →
  memory_from_defaults 1500 w2 = (Ok tt, w3) →
  import_simple_chat_engine w3 = (Err e, w4) →
  _create_react_agent self w =
  if decide (exn_class_of e = ImportError) then
    Run (Ret true)
      {| pdf_folder := pdf_folder self; agent := Some engine; index := index self |} w4
      [Call (AsQueryEngine (Some idx) 3 japanese_template); Call (QueryEngineTool engine);
       Call (MemoryFromDefaults 1500); Call ImportSimpleChatEngine;
       Ui StSuccess "✅ 基本クエリエンジン準備完了"; Ui StSuccess "✅ ReActエージェント準備完了"]
  else
    Run (Ret false) self w4
      [Call (AsQueryEngine (Some idx) 3 japanese_template); Call (QueryEngineTool engine);
       Call (MemoryFromDefaults 1500); Call ImportSimpleChatEngine;
       Ui StError ("❌ ReActエージェント作成エラー: " +:+ str_exn e);
       Ui StError ("詳細エラー: " +:+ format_exc e)].
Proof.
  intros Hidx Heng Htool Hmem Himport.
  unfold _create_react_agent, index_as_query_engine. unfold_monad.
  destruct self as [folder ag ix]. simpl in *. subst ix. simpl.
  rewrite Heng. simpl. rewrite Htool. simpl. rewrite Hmem. simpl. rewrite Himport. simpl.
  by destruct (decide (exn_class_of e = ImportError)).
Qed.

Lemma create_react_agent_no_index self w :
  index self = None →
  _create_react_agent self w =
  Run (Ret false) self w [Ui StError "❌ インデックスが作成されていません"].
Proof.
  intros Hidx. unfold _create_react_agent. unfold_monad. by rewrite Hidx.
Qed.

(** Loading that fails before an index is built. *)
Lemma load_pdfs_missing_folder self w :
  os_path_exists (pdf_folder self) w = false →
  load_pdfs_with_react self w =
  Run (Ret false) self w [Ui StError ("❌ フォルダが見つかりません: " +:+ pdf_folder self)].
Proof.
  intros Hex. unfold load_pdfs_with_react. unfold_monad. by rewrite Hex.
Qed.

Lemma load_pdfs_listdir_raises self w e w1 :
  os_path_exists (pdf_folder self) w = true →
  os_listdir (pdf_folder self) w = (Err e, w1) →
  load_pdfs_with_react self w =
  Run (Ret false) self w1
    [Call (ListDir (pdf_folder self)); Ui StError ("❌ エラー: " +:+ str_exn e)].
Proof.
  intros Hex Hls. unfold load_pdfs_with_react. unfold_monad.
  rewrite Hex. simpl. by rewrite Hls.
Qed.

Lemma load_pdfs_reader_raises self w names w1 e w2 :
  os_path_exists (pdf_folder self) w = true →
  os_listdir (pdf_folder self) w = (Ok names, w1) →
  filter is_pdf names ≠ [] →
  load_data (pdf_folder self) w1 = (Err e, w2) →
  ∃ l, load_pdfs_with_react self w = Run (Ret false) self w2 l ∧
       last l = Some (Ui StError ("❌ エラー: " +:+ str_exn e)) ∧
       calls l = [ListDir (pdf_folder self); LoadData (pdf_folder self)].
Proof.
  intros Hex Hls Hpdf Hload. unfold load_pdfs_with_react. unfold_monad.
  rewrite Hex. simpl. rewrite Hls. simpl.
  unfold is_pdf in Hpdf. destruct (filter _ names) as [|f fs] eqn:Hfilter; [done|].
  rewrite (for_each_emits (f :: fs) _ (λ pdf_file, [Ui StWrite ("  • " +:+ pdf_file)]));
    [|reflexivity].
  simpl. rewrite Hload. simpl. eexists. split; [done|]. split.
  - by rewrite !app_comm_cons, last_app_cons.
  - by calls_norm.
Qed.

Lemma load_pdfs_index_raises self w names w1 docs w2 e w3 :
  os_path_exists (pdf_folder self) w = true →
  os_listdir (pdf_folder self) w = (Ok names, w1) →
  filter is_pdf names ≠ [] →
  load_data (pdf_folder self) w1 = (Ok docs, w2) →
  from_documents docs w2 = (Err e, w3) →
  ∃ l, load_pdfs_with_react self w = Run (Ret false) self w3 l ∧
       last l = Some (Ui StError ("❌ エラー: " +:+ str_exn e)) ∧
       calls l = [ListDir (pdf_folder self); LoadData (pdf_folder self);
                  FromDocuments docs].
Proof.
  intros Hex Hls Hpdf Hload Hindex. unfold load_pdfs_with_react. unfold_monad.
  rewrite Hex. simpl. rewrite Hls. simpl.
  unfold is_pdf in Hpdf. destruct (filter _ names) as [|f fs] eqn:Hfilter; [done|].
  rewrite (for_each_emits (f :: fs) _ (λ pdf_file, [Ui StWrite ("  • " +:+ pdf_file)]));
    [|reflexivity].
  simpl. rewrite Hload. simpl. rewrite Hindex. simpl. eexists. split; [done|]. split.
  - by rewrite !app_comm_cons, last_app_cons.
  - by calls_norm.
Qed.


(** *** The page script on any session state *)

Lemma main_no_key ui ss w :
  truthy (os_getenv "OPENAI_API_KEY" w) = false →
  main ui ss w =
  Run (Ctl Stop) ss w
    [Ui StPageConfig "ReAct PDF ChatBot"; Ui StTitle "🤖 ReAct PDF ChatBot";
     Ui StMarkdown "---"; Ui StHeader "📊 システム情報";
     Ui StError "❌ OPENAI_API_KEY が設定されていません"].
Proof.
  intros Hkey. unfold_main. unfold_monad. simpl. by rewrite Hkey.
Qed.

(** Keys that are absent get their defaults; the chatbot, once stored, is
    kept. *)
Lemma main_defaults ui self ss w :
  has_api_key w → chatbot ss = Some self →
  main ui ss w =
  main ui {| chatbot := Some self;
             messages := Some (default [] (messages ss));
             initialized := Some (default false (initialized ss)) |} w.
Proof.
  intros Hkey Hbot. destruct ss as [bot ms flag]. simpl in Hbot. subst bot.
  unfold_main. unfold_monad. simpl. rewrite Hkey. simpl.
  by destruct ms as [ms|], flag as [[]|].
Qed.

(** The first run: the chatbot is constructed. *)
Lemma main_constructor_raises ui ss w e w1 :
  has_api_key w → chatbot ss = None →
  openai_llm w = (Err e, w1) →
  main ui ss w = Run (Raise e) ss w1 (page_header ++ [Call OpenAI]).
Proof.
  intros Hkey Hbot Hllm. destruct ss as [bot ms flag]. simpl in Hbot. subst bot.
  unfold_main. unfold new_bot. unfold_monad. simpl. rewrite Hkey. simpl.
  by rewrite Hllm.
Qed.

Lemma main_first_run ui w w1 :
  has_api_key w → init_button ui = false →
  openai_llm w = (Ok tt, w1) →
  main ui {| chatbot := None; messages := None; initialized := None |} w =
  Run (Ret tt)
    (uninitialized_session {| pdf_folder := "pdfs"; agent := None; index := None |} [])
    w1
    (page_header ++
     [Call OpenAI; Ui StInfo "📁 PDFファイルを読み込んでチャットボットを初期化してください"]).
Proof.
  intros Hkey Hbutton Hllm.
  unfold_main. unfold new_bot. unfold_monad. simpl. rewrite Hkey. simpl.
  rewrite Hllm. simpl. by rewrite Hbutton.
Qed.

(** A run on an initialised session without chat input or clear press. *)
Lemma main_ready_idle ui self ms w :
  has_api_key w → truthy (chat_input ui) = false → clear_button ui = false →
  main ui (ready_session self ms) w =
  Run (Ret tt) (ready_session self ms) w (page_header ++ history_events ms).
Proof.
  intros Hkey Hchat Hbutton. unfold ready_session.
  unfold_main. unfold_monad. simpl. rewrite Hkey, Hchat, Hbutton. simpl.
  rewrite (for_each_emits ms _
    (λ m, [Ui StChatMessage (role_name (msg_role m)); Ui StMarkdown (content m)]));
    [|reflexivity].
  simpl. by rewrite app_nil_r.
Qed.

(** A question and a clear press in the same run. *)
Lemma main_submit_and_clear ui prompt self ms w :
  has_api_key w → chat_input ui = Some prompt → prompt ≠ EmptyString →
  clear_button ui = true →
  ∃ response w1 l1 self2 w2 l2,
    ask_with_react prompt self w = Run (Ret response) self w1 l1 ∧
    clear_agent_memory self w1 = Run (Ret tt) self2 w2 l2 ∧
    out (main ui (ready_session self ms) w) = Ctl Rerun ∧
    obj (main ui (ready_session self ms) w) = ready_session self2 [] ∧
    world (main ui (ready_session self ms) w) = w2.
Proof.
  intros Hkey Hchat Hprompt Hbutton.
  destruct (ask_with_react_returns prompt self w) as (response & w1 & l1 & Hask & _).
  destruct (clear_agent_memory_returns self w1) as (self2 & w2 & l2 & Hclear & _).
  exists response, w1, l1, self2, w2, l2. split; [done|]. split; [done|].
  unfold ready_session. unfold_main. unfold_monad. simpl.
  rewrite Hkey, Hchat, Hbutton. simpl.
  destruct prompt as [|c prompt]; [done|]. simpl.
  rewrite (for_each_emits ms _
    (λ m, [Ui StChatMessage (role_name (msg_role m)); Ui StMarkdown (content m)]));
    [|reflexivity].
  simpl. rewrite Hask. simpl.
  destruct (_contains_english response); simpl; rewrite Hclear; done.
Qed.

(** The full run of a submit, with its outbound calls. *)
Lemma main_submit_calls ui prompt self ms w :
  has_api_key w → chat_input ui = Some prompt → prompt ≠ EmptyString →
  clear_button ui = false →
  calls (log (main ui (ready_session self ms) w)) =
  calls (log (ask_with_react prompt self w)).
Proof.
  intros Hkey Hchat Hprompt Hbutton.
  destruct (ask_with_react_returns prompt self w) as (response & w1 & l1 & Hask & _).
  unfold ready_session. unfold_main. unfold_monad. simpl.
  rewrite Hkey, Hchat, Hbutton. simpl.
  destruct prompt as [|c prompt]; [done|]. simpl.
  rewrite (for_each_emits ms _
    (λ m, [Ui StChatMessage (role_name (msg_role m)); Ui StMarkdown (content m)]));
    [|reflexivity].
  simpl. rewrite Hask. simpl.
  fold (history_events ms).
  destruct (_contains_english response); simpl; calls_norm; by rewrite ?app_nil_r.
Qed.

End MoreProgramFacts.

(** * Further properties of the code *)

Section Extras.
Context {E : Externals}.

#[local] Arguments translate_prompt : simpl never.
#[local] Arguments String.append : simpl never.
#[local] Arguments _contains_english : simpl never.
#[local] Arguments japanese_template : simpl never.
#[local] Arguments japanese_fallback_template : simpl never.
#[local] Arguments page_header : simpl never.

Lemma contains_english_after_newline rest :
  _contains_english (Text.nl +:+ rest) = _contains_english rest.
Proof.
  change (Text.nl +:+ rest) with (EmptyString +:+ String (ascii_of_nat 10) rest).
  unfold _contains_english. by rewrite contains_english_with_sep.
Qed.

(** X1: the detector judges a composed response piece by piece.  On the
    response of the primary path (answer, blank line, citation block) it
    fires exactly when it fires on the answer or on the citation block; the
    direct-search marker of the fallback path adds nothing; in general a
    non-letter separates what is judged. *)
Theorem X1_detector_judges_response_piecewise :
  (∀ answer sources,
     _contains_english (answer +:+ Text.nl +:+ Text.nl +:+ sources) =
     _contains_english answer || _contains_english sources) ∧
  (∀ answer sources,
     _contains_english (direct_search_marker +:+ Text.nl +:+ answer +:+
                        Text.nl +:+ Text.nl +:+ sources) =
     _contains_english answer || _contains_english sources) ∧
  (∀ a c b,
     Re.is_ascii_letter c = false →
     _contains_english (a +:+ String c b) = _contains_english a || _contains_english b).
Proof.
  assert (Hsep : ∀ a c b, Re.is_ascii_letter c = false →
            _contains_english (a +:+ String c b) =
            _contains_english a || _contains_english b).
  { intros a c b Hc. by apply contains_english_with_sep. }
  assert (Hpair : ∀ answer sources,
            _contains_english (answer +:+ Text.nl +:+ Text.nl +:+ sources) =
            _contains_english answer || _contains_english sources).
  { intros answer sources.
    change (answer +:+ Text.nl +:+ Text.nl +:+ sources)
      with (answer +:+ String (ascii_of_nat 10) (Text.nl +:+ sources)).
    by rewrite Hsep, contains_english_after_newline. }
  split_and!; [done| |done].
  intros answer sources.
  change (direct_search_marker +:+ Text.nl +:+ answer +:+ Text.nl +:+ Text.nl +:+ sources)
    with (direct_search_marker +:+
          String (ascii_of_nat 10) (answer +:+ Text.nl +:+ Text.nl +:+ sources)).
  rewrite Hsep, Hpair by done.
  assert (Hmarker : _contains_english direct_search_marker = false)
    by (vm_compute; reflexivity).
  by rewrite Hmarker.
Qed.

(** X2: when the detector fires, the text has at least three ASCII letters,
    and the letters never outnumber the characters; so the ratio that the
    page shows has a positive denominator and is at most one, and the
    zero-length alternative of its computation is never taken. *)
Theorem X2_detection_needs_three_letters text :
  _contains_english text = true →
  3 ≤ Re.count_letters text ∧
  Re.count_letters text ≤ Text.len text ∧
  (0 <? Text.len text) = true.
Proof.
  intros (r & Hrun & Hlen & _)%contains_english_true.
  pose proof (maximal_run_count text r Hrun) as Hcount.
  pose proof (count_letters_le_len text) as Hle.
  split_and!; [lia|done|]. apply Nat.ltb_lt. lia.
Qed.

(** X3: the filter, the source attributor, the fallback search and
    [ask_with_react] return a string whatever the collaborators do, and
    leave the chatbot object as it was. *)
Theorem X3_query_methods_return_and_keep_object text question self w :
  ((∃ s, out (_force_japanese_response text self w) = Ret s) ∧
   obj (_force_japanese_response text self w) = self) ∧
  ((∃ s, out (_get_source_info question self w) = Ret s) ∧
   obj (_get_source_info question self w) = self) ∧
  ((∃ s, out (_fallback_search question self w) = Ret s) ∧
   obj (_fallback_search question self w) = self) ∧
  ((∃ s, out (ask_with_react question self w) = Ret s) ∧
   obj (ask_with_react question self w) = self).
Proof.
  destruct (force_japanese_response_returns text self w) as (s1 & ? & ? & -> & _).
  destruct (get_source_info_returns question self w) as (s2 & ? & ? & -> & _).
  destruct (fallback_search_returns question self w) as (s3 & ? & ? & -> & _).
  destruct (ask_with_react_returns question self w) as (s4 & ? & ? & -> & _).
  simpl. split_and!; eauto.
Qed.

(** X4: loading and rebuilding always return a boolean; they keep the
    folder and never drop an index; after [True] agent and index are set;
    after [False] the agent is the one from before and an error was
    shown.  Rebuilding never touches the index, and without an index it
    does nothing but show an error. *)
Theorem X4_load_and_rebuild_keep_folder_and_index self w :
  (∃ b, out (load_pdfs_with_react self w) = Ret b ∧
        pdf_folder (obj (load_pdfs_with_react self w)) = pdf_folder self ∧
        (is_Some (index self) → is_Some (index (obj (load_pdfs_with_react self w)))) ∧
        (b = true → is_Some (agent (obj (load_pdfs_with_react self w))) ∧
                    is_Some (index (obj (load_pdfs_with_react self w)))) ∧
        (b = false → agent (obj (load_pdfs_with_react self w)) = agent self ∧
                     shows_error (log (load_pdfs_with_react self w)))) ∧
  (∃ b, out (_create_react_agent self w) = Ret b ∧
        pdf_folder (obj (_create_react_agent self w)) = pdf_folder self ∧
        index (obj (_create_react_agent self w)) = index self ∧
        (b = true → is_Some (agent (obj (_create_react_agent self w))) ∧
                    is_Some (index self)) ∧
        (b = false → agent (obj (_create_react_agent self w)) = agent self ∧
                     shows_error (log (_create_react_agent self w)))) ∧
  (index self = None →
     _create_react_agent self w =
     Run (Ret false) self w [Ui StError "❌ インデックスが作成されていません"]).
Proof.
  split_and!.
  - destruct (load_pdfs_with_react_spec self w)
      as (b & self1 & w1 & l & -> & Hfolder & Htrue & Hfalse & Hindex).
    exists b. simpl. split_and!; try done.
    + intros Hsome. destruct Hindex as [->|?]; done.
    + intros Hb. destruct (Htrue Hb)
        as (_ & ? & ? & ? & ? & ? & ? & ? & ? & _ & _ & _ & _ & _ & -> & ->). eauto.
    + intros Hb. by destruct (Hfalse Hb).
  - destruct (create_react_agent_spec self w)
      as (b & self1 & w1 & l & -> & Hfolder & Hindex & Htrue & Hfalse).
    exists b. simpl. split_and!; try done.
    intros Hb. destruct (Htrue Hb) as (? & ? & ? & -> & _ & ->). eauto.
  - apply create_react_agent_no_index.
Qed.

(** X5: when the import of the chat-engine class raises after the engine,
    the tool and the memory buffer were built, an [ImportError] is
    tolerated, the agent is set and the result is [True]; any other
    exception makes the creation fail with the object untouched and the
    error text shown. *)
Theorem X5_import_error_is_tolerated self w idx engine w1 w2 w3 e w4 :
  index self = Some idx →
  as_query_engine idx 3 japanese_template w = (Ok engine, w1) →
  query_engine_tool engine w1 = (Ok tt, w2) →
  memory_from_defaults 1500 w2 = (Ok tt, w3) →
  import_simple_chat_engine w3 = (Err e, w4) →
  (exn_class_of e = ImportError →
     out (_create_react_agent self w) = Ret true ∧
     agent (obj (_create_react_agent self w)) = Some engine ∧
     index (obj (_create_react_agent self w)) = Some idx ∧
     Ui StSuccess "✅ 基本クエリエンジン準備完了" ∈ log (_create_react_agent self w)) ∧
  (exn_class_of e ≠ ImportError →
     out (_create_react_agent self w) = Ret false ∧
     obj (_create_react_agent self w) = self ∧
     Ui StError ("❌ ReActエージェント作成エラー: " +:+ str_exn e)
       ∈ log (_create_react_agent self w)).
Proof.
  intros Hidx Heng Htool Hmem Himport.
  rewrite (create_react_agent_import_raises _ _ _ _ _ _ _ _ _ Hidx Heng Htool Hmem Himport).
  split; intros Hclass.
  - rewrite decide_True by done. simpl. rewrite Hidx. split_and!; try done.
    do 4 apply list_elem_of_further. apply list_elem_of_here.
  - rewrite decide_False by done. simpl. split_and!; try done.
    do 4 apply list_elem_of_further. apply list_elem_of_here.
Qed.

(** X6: a load that fails before an index is built leaves the chatbot
    object untouched and returns [False]: a missing folder is named in the
    error and nothing is called; an exception from the directory listing,
    the reader or the index builder is shown with its text, and the calls
    stop there. *)
Theorem X6_early_load_failure_leaves_object self w :
  (os_path_exists (pdf_folder self) w = false →
     load_pdfs_with_react self w =
     Run (Ret false) self w
       [Ui StError ("❌ フォルダが見つかりません: " +:+ pdf_folder self)]) ∧
  (∀ e w1,
     os_path_exists (pdf_folder self) w = true →
     os_listdir (pdf_folder self) w = (Err e, w1) →
     load_pdfs_with_react self w =
     Run (Ret false) self w1
       [Call (ListDir (pdf_folder self)); Ui StError ("❌ エラー: " +:+ str_exn e)]) ∧
  (∀ names w1 e w2,
     os_path_exists (pdf_folder self) w = true →
     os_listdir (pdf_folder self) w = (Ok names, w1) →
     filter is_pdf names ≠ [] →
     load_data (pdf_folder self) w1 = (Err e, w2) →
     out (load_pdfs_with_react self w) = Ret false ∧
     obj (load_pdfs_with_react self w) = self ∧
     last (log (load_pdfs_with_react self w)) =
       Some (Ui StError ("❌ エラー: " +:+ str_exn e)) ∧
     calls (log (load_pdfs_with_react self w)) =
       [ListDir (pdf_folder self); LoadData (pdf_folder self)]) ∧
  (∀ names w1 docs w2 e w3,
     os_path_exists (pdf_folder self) w = true →
     os_listdir (pdf_folder self) w = (Ok names, w1) →
     filter is_pdf names ≠ [] →
     load_data (pdf_folder self) w1 = (Ok docs, w2) →
     from_documents docs w2 = (Err e, w3) →
     out (load_pdfs_with_react self w) = Ret false ∧
     obj (load_pdfs_with_react self w) = self ∧
     last (log (load_pdfs_with_react self w)) =
       Some (Ui StError ("❌ エラー: " +:+ str_exn e)) ∧
     calls (log (load_pdfs_with_react self w)) =
       [ListDir (pdf_folder self); LoadData (pdf_folder self); FromDocuments docs]).
Proof.
  split_and!.
  - apply load_pdfs_missing_folder.
  - intros e w1. apply load_pdfs_listdir_raises.
  - intros names w1 e w2 Hex Hls Hpdf Hload.
    by destruct (load_pdfs_reader_raises _ _ _ _ _ _ Hex Hls Hpdf Hload) as (l & -> & ? & ?).
  - intros names w1 docs w2 e w3 Hex Hls Hpdf Hload Hindex.
    by destruct (load_pdfs_index_raises _ _ _ _ _ _ _ _ Hex Hls Hpdf Hload Hindex)
      as (l & -> & ? & ?).
Qed.

(** X7: when the primary query returns, the answer of [ask_with_react] is
    the filtered response, a blank line, and the citation block that the
    source attributor retrieves afterwards; the outbound calls are the
    query, then those of the filter, then those of the attributor, and the
    object is unchanged. *)
Theorem X7_primary_answer_composition question self w engine resp w1 :
  agent self = Some engine →
  query engine question w = (Ok resp, w1) →
  ∃ japanese_response sources_info,
    out (_force_japanese_response (str_response resp) self w1) = Ret japanese_response ∧
    out (_get_source_info question self
           (world (_force_japanese_response (str_response resp) self w1)))
      = Ret sources_info ∧
    out (ask_with_react question self w) =
      Ret (japanese_response +:+ Text.nl +:+ Text.nl +:+ sources_info) ∧
    obj (ask_with_react question self w) = self ∧
    calls (log (ask_with_react question self w)) =
      Query engine question ::
      calls (log (_force_japanese_response (str_response resp) self w1)) ++
      calls (log (_get_source_info question self
                    (world (_force_japanese_response (str_response resp) self w1)))).
Proof.
  intros Hagent Hq.
  destruct (ask_with_react_success _ _ _ _ _ _ Hagent Hq)
    as (jr & w2 & l2 & si & w3 & l3 & Hf & Hs & Hask).
  exists jr, si. rewrite Hf. cbn [out world log]. rewrite Hs, Hask. cbn [out obj log].
  split_and!; try done. by calls_norm.
Qed.

(** X8: when the primary query raises and the fallback path fails as well,
    at its engine or at its query, [ask_with_react] returns the search-error
    line with the text of the second exception; neither the filter nor the
    source attributor is called. *)
Theorem X8_double_failure_reports_second_error question self w engine e1 w1 idx :
  agent self = Some engine →
  query engine question w = (Err e1, w1) →
  index self = Some idx →
  (∀ e2 w2,
     as_query_engine idx 5 japanese_fallback_template w1 = (Err e2, w2) →
     out (ask_with_react question self w) = Ret ("❌ 検索エラー: " +:+ str_exn e2) ∧
     calls (log (ask_with_react question self w)) =
       [Query engine question; AsQueryEngine (Some idx) 5 japanese_fallback_template]) ∧
  (∀ fallback_engine w2 e2 w3,
     as_query_engine idx 5 japanese_fallback_template w1 = (Ok fallback_engine, w2) →
     query fallback_engine question w2 = (Err e2, w3) →
     out (ask_with_react question self w) = Ret ("❌ 検索エラー: " +:+ str_exn e2) ∧
     calls (log (ask_with_react question self w)) =
       [Query engine question; AsQueryEngine (Some idx) 5 japanese_fallback_template;
        Query fallback_engine question]).
Proof.
  intros Hagent Hq Hidx.
  rewrite (ask_with_react_query_raises _ _ _ _ _ _ Hagent Hq).
  split.
  - intros e2 w2 Heng. rewrite (fallback_search_engine_fails _ _ _ _ _ _ Hidx Heng).
    split; [done|]. cbn [log]. by calls_norm.
  - intros eng2 w2 e2 w3 Heng Hq2.
    rewrite (fallback_search_query_fails _ _ _ _ _ _ _ _ Hidx Heng Hq2).
    split; [done|]. cbn [log]. by calls_norm.
Qed.

(** X9: after a load that returned [True], the object holds the index that
    the index builder returned in that load, for the documents the reader
    returned in that load, and as agent the engine that this index gave for
    top-k 3 and the Japanese template right after; every later question, in
    any world, goes first to that engine. *)
Theorem X9_loaded_bot_queries_built_engine self w :
  out (load_pdfs_with_react self w) = Ret true →
  ∃ names w1 docs w2 idx w3 engine w4,
    os_listdir (pdf_folder self) w = (Ok names, w1) ∧
    load_data (pdf_folder self) w1 = (Ok docs, w2) ∧
    from_documents docs w2 = (Ok idx, w3) ∧
    as_query_engine idx 3 japanese_template w3 = (Ok engine, w4) ∧
    index (obj (load_pdfs_with_react self w)) = Some idx ∧
    agent (obj (load_pdfs_with_react self w)) = Some engine ∧
    ∀ question w5,
      head (calls (log (ask_with_react question (obj (load_pdfs_with_react self w)) w5)))
      = Some (Query engine question).
Proof.
  intros Hout.
  destruct (load_pdfs_with_react_spec self w)
    as (b & self1 & w1 & l & Hrun & _ & Htrue & _).
  rewrite Hrun in Hout |- *. simpl in *. inversion Hout; subst b.
  destruct (Htrue eq_refl)
    as (_ & names & w2 & docs & w3 & idx & w4 & engine & w5 &
        Hls & _ & Hdocs & Hbuilt & Heng & Hindex & Hagent).
  exists names, w2, docs, w3, idx, w4, engine, w5. split_and!; try done.
  intros question w6. by apply ask_with_react_first_call.
Qed.

(** X10: without the credential the script shows the error and stops at
    once: the session state is not touched, no chatbot is constructed, no
    button or chat input is looked at, and nothing is called. *)
Theorem X10_missing_credential_stops_script ui ss w :
  truthy (os_getenv "OPENAI_API_KEY" w) = false →
  main ui ss w =
    Run (Ctl Stop) ss w
      [Ui StPageConfig "ReAct PDF ChatBot"; Ui StTitle "🤖 ReAct PDF ChatBot";
       Ui StMarkdown "---"; Ui StHeader "📊 システム情報";
       Ui StError "❌ OPENAI_API_KEY が設定されていません"] ∧
  calls (log (main ui ss w)) = [].
Proof.
  intros Hkey. by rewrite (main_no_key ui ss w Hkey).
Qed.

(** X11: on the first run, with the credential set, the script constructs
    the chatbot.  If the constructor raises, the exception leaves the script
    and the session state stays as it was; if it returns, the session holds
    a chatbot for the folder ['pdfs'] without agent or index, an empty
    history and the flag [False], and the page asks for initialisation. *)
Theorem X11_first_run_constructs_chatbot ui w :
  has_api_key w →
  (∀ ss e w1,
     chatbot ss = None → openai_llm w = (Err e, w1) →
     main ui ss w = Run (Raise e) ss w1 (page_header ++ [Call OpenAI])) ∧
  (∀ w1,
     openai_llm w = (Ok tt, w1) → init_button ui = false →
     main ui empty_session w =
     Run (Ret tt) (uninitialized_session constructed_bot []) w1
       (page_header ++
        [Call OpenAI; Ui StInfo "📁 PDFファイルを読み込んでチャットボットを初期化してください"])).
Proof.
  intros Hkey. split.
  - intros ss e w1 Hbot Hllm. by apply main_constructor_raises.
  - intros w1 Hllm Hbutton. by apply main_first_run.
Qed.

(** X12: while the session is not initialised, a run without the
    initialisation button does nothing: a submitted question is not
    processed and a clear press is ignored; nothing is called, and the
    session keeps its chatbot and history. *)
Theorem X12_uninitialized_ignores_chat_and_clear ui self ss w :
  has_api_key w →
  chatbot ss = Some self → initialized ss ≠ Some true →
  init_button ui = false →
  main ui ss w =
    Run (Ret tt) (uninitialized_session self (default [] (messages ss))) w
      (page_header ++ [Ui StInfo "📁 PDFファイルを読み込んでチャットボットを初期化してください"]) ∧
  calls (log (main ui ss w)) = [].
Proof.
  intros Hkey Hbot Hflag Hbutton.
  rewrite (main_defaults ui self ss w Hkey Hbot).
  assert (Hdefault : default false (initialized ss) = false).
  { destruct (initialized ss) as [[]|]; done. }
  rewrite Hdefault.
  fold (uninitialized_session self (default [] (messages ss))).
  by rewrite (main_idle ui self _ w Hkey Hbutton).
Qed.

(** X13: no run of the script leaves Ready.  Whatever the widgets return
    and whatever the collaborators do, an initialised session stays
    initialised, keeps a chatbot with the same folder and the same index,
    and no exception leaves the script. *)
Theorem X13_ready_is_never_left ui self ms w :
  (∃ self1 ms1,
     obj (main ui (ready_session self ms) w) = ready_session self1 ms1 ∧
     pdf_folder self1 = pdf_folder self ∧ index self1 = index self) ∧
  (∀ e, out (main ui (ready_session self ms) w) ≠ Raise e).
Proof.
  destruct (truthy (os_getenv "OPENAI_API_KEY" w)) eqn:Hkey.
  2:{ rewrite (main_no_key ui _ w Hkey). simpl. split; [by exists self, ms|done]. }
  destruct (chat_input ui) as [[|c prompt]|] eqn:Hchat;
    destruct (clear_button ui) eqn:Hbutton.
  - destruct (main_clear ui self ms w Hkey) as (self1 & w1 & l & Hclear & Hmain);
      [by rewrite Hchat|done|].
    fold (ready_session self ms) in Hmain. rewrite Hmain. simpl.
    destruct (clear_agent_memory_returns self w) as (s' & w' & l' & Hclear' & ? & ? & _).
    rewrite Hclear in Hclear'. inversion Hclear'; subst s' w' l'.
    split; [by exists self1, []|done].
  - rewrite (main_ready_idle ui self ms w Hkey); [|by rewrite Hchat|done].
    simpl. split; [by exists self, ms|done].
  - destruct (main_submit_and_clear ui (String c prompt) self ms w Hkey Hchat)
      as (response & w1 & l1 & self2 & w2 & l2 & _ & Hclear & Hout & Hobj & _);
      [done..|].
    rewrite Hout, Hobj.
    destruct (clear_agent_memory_returns self w1) as (s' & w' & l' & Hclear' & ? & ? & _).
    rewrite Hclear in Hclear'. inversion Hclear'; subst s' w' l'.
    split; [by exists self2, []|done].
  - destruct (main_submit ui (String c prompt) self ms w Hkey Hchat)
      as (response & w1 & l & _ & Hout & Hobj & _); [done..|].
    fold (ready_session self ms) in Hout, Hobj. rewrite Hout, Hobj.
    split; [|done]. by eexists self, _.
  - destruct (main_clear ui self ms w Hkey) as (self1 & w1 & l & Hclear & Hmain);
      [by rewrite Hchat|done|].
    fold (ready_session self ms) in Hmain. rewrite Hmain. simpl.
    destruct (clear_agent_memory_returns self w) as (s' & w' & l' & Hclear' & ? & ? & _).
    rewrite Hclear in Hclear'. inversion Hclear'; subst s' w' l'.
    split; [by exists self1, []|done].
  - rewrite (main_ready_idle ui self ms w Hkey); [|by rewrite Hchat|done].
    simpl. split; [by exists self, ms|done].
Qed.

(** X14: a submitted question appends exactly two turns to the history, the
    user's question and then the answer of [ask_with_react], after the turns
    that were there; the chatbot object is unchanged, and the outbound calls
    of the run are those of [ask_with_react] for that question alone, so
    earlier turns are not sent anywhere. *)
Theorem X14_submit_appends_two_turns ui prompt self ms w :
  has_api_key w → chat_input ui = Some prompt → prompt ≠ EmptyString →
  clear_button ui = false →
  ∃ response,
    out (ask_with_react prompt self w) = Ret response ∧
    out (main ui (ready_session self ms) w) = Ret tt ∧
    obj (main ui (ready_session self ms) w) =
      ready_session self (ms ++ [Message User prompt; Message Assistant response]) ∧
    world (main ui (ready_session self ms) w) = world (ask_with_react prompt self w) ∧
    calls (log (main ui (ready_session self ms) w)) =
      calls (log (ask_with_react prompt self w)).
Proof.
  intros Hkey Hchat Hprompt Hbutton.
  destruct (main_submit ui prompt self ms w Hkey Hchat Hprompt Hbutton)
    as (response & w1 & l & Hask & Hout & Hobj & Hworld).
  exists response. fold (ready_session self ms) in Hout, Hobj, Hworld.
  rewrite Hout, Hobj, Hworld, (main_submit_calls ui prompt self ms w) by done.
  by rewrite Hask.
Qed.

(** X15: a run on an initialised session without a question and without a
    clear press renders the stored turns in order, role then content, and
    changes nothing: the session and the outside world are as before and
    nothing is called. *)
Theorem X15_idle_rerun_renders_history ui self ms w :
  has_api_key w → truthy (chat_input ui) = false → clear_button ui = false →
  main ui (ready_session self ms) w =
    Run (Ret tt) (ready_session self ms) w (page_header ++ history_events ms) ∧
  history_events ms =
    concat ((λ m, [Ui StChatMessage (role_name (msg_role m)); Ui StMarkdown (content m)])
              <$> ms) ∧
  calls (log (main ui (ready_session self ms) w)) = [].
Proof.
  intros Hkey Hchat Hbutton.
  rewrite (main_ready_idle ui self ms w Hkey Hchat Hbutton).
  split_and!; [done..|]. cbn [log]. by calls_norm.
Qed.

(** X16: a failing source attribution never loses the answer.  When the
    primary query returns but the retriever cannot be built or raises, the
    answer of [ask_with_react] is still the filtered response, followed by
    a blank line and the attribution-error line with the exception text;
    with no index the line carries the attribute error. *)
Theorem X16_attribution_failure_keeps_answer question self w engine resp w1 :
  agent self = Some engine →
  query engine question w = (Ok resp, w1) →
  ∃ japanese_response w2,
    out (_force_japanese_response (str_response resp) self w1) = Ret japanese_response ∧
    world (_force_japanese_response (str_response resp) self w1) = w2 ∧
    (index self = None →
       out (ask_with_react question self w) =
       Ret (japanese_response +:+ Text.nl +:+ Text.nl +:+
            "📚 【出典情報取得エラー】" +:+ "'NoneType' object has no attribute 'as_retriever'")) ∧
    (∀ idx e w3,
       index self = Some idx → as_retriever idx 3 w2 = (Err e, w3) →
       out (ask_with_react question self w) =
       Ret (japanese_response +:+ Text.nl +:+ Text.nl +:+
            "📚 【出典情報取得エラー】" +:+ str_exn e)) ∧
    (∀ idx rt w3 e w4,
       index self = Some idx → as_retriever idx 3 w2 = (Ok rt, w3) →
       retrieve rt question w3 = (Err e, w4) →
       out (ask_with_react question self w) =
       Ret (japanese_response +:+ Text.nl +:+ Text.nl +:+
            "📚 【出典情報取得エラー】" +:+ str_exn e)).
Proof.
  intros Hagent Hq.
  destruct (ask_with_react_success _ _ _ _ _ _ Hagent Hq)
    as (jr & w2 & l2 & si & w3 & l3 & Hf & Hs & Hask).
  exists jr, w2. rewrite Hf, Hask. cbn [out world].
  rewrite get_source_info_run in Hs. split_and!; try done.
  - intros Hidx. rewrite Hidx in Hs. by inversion Hs.
  - intros idx e w4 Hidx Hrt. rewrite Hidx, Hrt in Hs. by inversion Hs.
  - intros idx rt w4 e w5 Hidx Hrt Hretrieve.
    rewrite Hidx, Hrt, Hretrieve in Hs. by inversion Hs.
Qed.

Lemma detected_len_positive text :
  _contains_english text = true → (0 <? Text.len text) = true.
Proof.
  intros (r & Hrun & Hlen & _)%contains_english_true.
  pose proof (maximal_run_count text r Hrun).
  pose proof (count_letters_le_len text).
  apply Nat.ltb_lt. lia.
Qed.

Lemma main_submit_log ui prompt self ms w :
  has_api_key w → chat_input ui = Some prompt → prompt ≠ EmptyString →
  clear_button ui = false →
  ∃ response,
    out (ask_with_react prompt self w) = Ret response ∧
    log (main ui (ready_session self ms) w) =
      page_header ++ history_events ms ++
      [Ui StChatMessage "user"; Ui StMarkdown prompt; Ui StChatMessage "assistant"] ++
      log (ask_with_react prompt self w) ++
      Ui StMarkdown response :: language_indicator response.
Proof.
  intros Hkey Hchat Hprompt Hbutton.
  destruct (ask_with_react_returns prompt self w) as (response & w1 & l1 & Hask & _).
  exists response. split; [by rewrite Hask|].
  unfold ready_session. unfold_main. unfold_monad. simpl.
  rewrite Hkey, Hchat, Hbutton. simpl.
  destruct prompt as [|c prompt]; [done|]. simpl.
  rewrite (for_each_emits ms _
    (λ m, [Ui StChatMessage (role_name (msg_role m)); Ui StMarkdown (content m)]));
    [|reflexivity].
  simpl. rewrite Hask. simpl.
  fold (history_events ms). unfold language_indicator.
  destruct (_contains_english response) eqn:Hdetected; simpl.
  - rewrite (detected_len_positive response Hdetected). by rewrite app_nil_r.
  - by rewrite app_nil_r.
Qed.

#[local] Ltac no_such_call :=
  let H := fresh "Hin" in
  rewrite ?elem_of_cons, elem_of_nil; intros H;
  repeat (destruct H as [H|H]; [discriminate H|]); destruct H.

Lemma get_source_info_no_completion question self w prompt :
  Complete prompt ∉ calls (log (_get_source_info question self w)).
Proof.
  rewrite get_source_info_run.
  destruct (index self) as [idx|]; [|cbn [log]; calls_norm; no_such_call].
  destruct (as_retriever idx 3 w) as [[rt|e] w1]; [|cbn [log]; calls_norm; no_such_call].
  destruct (retrieve rt question w1) as [[ns|e] w2];
    cbn [log]; calls_norm; no_such_call.
Qed.

Lemma after_op_keeps op self w :
  pdf_folder (after_op op self w) = pdf_folder self ∧
  (is_Some (index self) → is_Some (index (after_op op self w))) ∧
  (is_Some (agent self) → is_Some (agent (after_op op self w))) ∧
  (op ≠ OpLoad → index (after_op op self w) = index self).
Proof.
  destruct op as [|question| |]; simpl.
  - destruct (load_pdfs_with_react_spec self w)
      as (b & self1 & w1 & l & -> & Hfolder & Htrue & Hfalse & Hindex). simpl.
    split_and!; try done.
    + intros Hsome. destruct Hindex as [->|?]; done.
    + intros Hsome. destruct b.
      * destruct (Htrue eq_refl)
          as (_ & ? & ? & ? & ? & ? & ? & ? & ? & _ & _ & _ & _ & _ & _ & ->). eauto.
      * by destruct (Hfalse eq_refl) as [_ ->].
  - by destruct (ask_with_react_returns question self w) as (s & w1 & l & -> & _).
  - destruct (clear_agent_memory_returns self w)
      as (self1 & w1 & l & -> & Hfolder & Hindex & Hagent). simpl.
    split_and!; try done.
    + by rewrite Hindex.
    + intros Hsome. destruct Hagent as [->|[? _]]; done.
  - destruct (create_react_agent_spec self w)
      as (b & self1 & w1 & l & -> & Hfolder & Hindex & Htrue & Hfalse). simpl.
    split_and!; try done.
    + by rewrite Hindex.
    + intros Hsome. destruct b.
      * destruct (Htrue eq_refl) as (? & ? & ? & _ & _ & ->). eauto.
      * by destruct (Hfalse eq_refl) as [-> _].
Qed.

(** X17: the page of a submit, event by event: the header, the stored
    turns, the question, the events of [ask_with_react], the answer, and
    then the language indicator, which judges the whole answer as appended
    to the history: the ratio warning with the debug note when the detector
    fires on it, the all-Japanese notice otherwise.  The ratio is always
    the letter count over the length; its zero-length alternative is never
    taken. *)
Theorem X17_submit_page_and_language_indicator ui prompt self ms w :
  has_api_key w → chat_input ui = Some prompt → prompt ≠ EmptyString →
  clear_button ui = false →
  ∃ response,
    out (ask_with_react prompt self w) = Ret response ∧
    log (main ui (ready_session self ms) w) =
      page_header ++ history_events ms ++
      [Ui StChatMessage "user"; Ui StMarkdown prompt; Ui StChatMessage "assistant"] ++
      log (ask_with_react prompt self w) ++
      Ui StMarkdown response :: language_indicator response ∧
    (Ui SidebarSuccess "✅ 完全日本語回答" ∈ language_indicator response ↔
     _contains_english response = false).
Proof.
  intros Hkey Hchat Hprompt Hbutton.
  destruct (main_submit_log ui prompt self ms w Hkey Hchat Hprompt Hbutton)
    as (response & Hask & Hlog).
  exists response. split_and!; try done.
  unfold language_indicator. destruct (_contains_english response).
  - split; [|done]. no_such_call.
  - split; [done|]. intros _. apply list_elem_of_here.
Qed.

(** X18: the language indicator of the page is independent of the rewrite.
    When the engine's answer is conformant, no rewrite is requested and the
    answer is passed on as it is; the indicator still judges the citation
    block that follows it, so a document name with a run outside the
    allow-list brings up the warning and the note that a conversion was
    performed, although no completion was called. *)
Theorem X18_indicator_judges_citation_block ui prompt self ms w engine resp w1 :
  has_api_key w → chat_input ui = Some prompt → prompt ≠ EmptyString →
  clear_button ui = false →
  agent self = Some engine → query engine prompt w = (Ok resp, w1) →
  _contains_english (str_response resp) = false →
  ∃ sources_info,
    out (_get_source_info prompt self w1) = Ret sources_info ∧
    out (ask_with_react prompt self w) =
      Ret (str_response resp +:+ Text.nl +:+ Text.nl +:+ sources_info) ∧
    (∀ p, Complete p ∉ calls (log (main ui (ready_session self ms) w))) ∧
    (_contains_english sources_info = true →
       Ui StWrite "英語が含まれていたため日本語変換を実行しました"
         ∈ log (main ui (ready_session self ms) w)) ∧
    (_contains_english sources_info = false →
       Ui SidebarSuccess "✅ 完全日本語回答" ∈ log (main ui (ready_session self ms) w)).
Proof.
  intros Hkey Hchat Hprompt Hbutton Hagent Hq Hconformant.
  destruct (ask_with_react_success _ _ _ _ _ _ Hagent Hq)
    as (jr & w2 & l2 & si & w3 & l3 & Hf & Hs & Hask).
  rewrite force_japanese_response_run, Hconformant in Hf.
  inversion Hf; subst jr w2 l2. clear Hf.
  exists si. rewrite Hs. cbn [out].
  destruct (main_submit_log ui prompt self ms w Hkey Hchat Hprompt Hbutton)
    as (response & Hout & Hlog).
  rewrite Hask in Hout. cbn [out] in Hout. inversion Hout; subst response. clear Hout.
  assert (Hjudged :
    _contains_english (str_response resp +:+ Text.nl +:+ Text.nl +:+ si) =
    _contains_english si).
  { change (str_response resp +:+ Text.nl +:+ Text.nl +:+ si)
      with (str_response resp +:+ String (ascii_of_nat 10) (Text.nl +:+ si)).
    unfold _contains_english at 1.
    rewrite contains_english_with_sep by done.
    fold (_contains_english (str_response resp)).
    fold (_contains_english (Text.nl +:+ si)).
    by rewrite Hconformant, contains_english_after_newline. }
  split_and!.
  - done.
  - by rewrite Hask.
  - intros p. rewrite (main_submit_calls ui prompt self ms w) by done.
    rewrite Hask. cbn [log]. calls_norm. simpl.
    pose proof (get_source_info_no_completion prompt self w1 p) as Hnone.
    rewrite Hs in Hnone. cbn [log] in Hnone.
    intros [Heq|Hin]%elem_of_cons; [done|]. by apply Hnone.
  - intros Hsources. rewrite Hlog. unfold language_indicator.
    rewrite Hjudged, Hsources.
    rewrite !elem_of_app. do 3 right. rewrite !elem_of_cons. auto 10.
  - intros Hsources. rewrite Hlog. unfold language_indicator.
    rewrite Hjudged, Hsources.
    rewrite !elem_of_app. do 3 right. rewrite !elem_of_cons. auto 10.
Qed.

(** X19: no sequence of operations on a chatbot object, in whatever states
    of the outside world, changes its folder, drops an index it has, or
    drops an agent it has; without a load in the sequence the index is the
    very same; and an object whose agent comes with an index keeps that
    property. *)
Theorem X19_operations_never_drop_agent_or_index ops self :
  pdf_folder (after_ops ops self) = pdf_folder self ∧
  (is_Some (index self) → is_Some (index (after_ops ops self))) ∧
  (is_Some (agent self) → is_Some (agent (after_ops ops self))) ∧
  (Forall (λ o, o.1 ≠ OpLoad) ops → index (after_ops ops self) = index self) ∧
  (agent_has_index self → agent_has_index (after_ops ops self)).
Proof.
  revert self. induction ops as [|[op w] ops IH]; intros self; [done|].
  simpl. destruct (IH (after_op op self w)) as (Hfolder & Hindex & Hagent & Hsame & Hinv).
  destruct (after_op_keeps op self w) as (Hfolder1 & Hindex1 & Hagent1 & Hsame1).
  split_and!.
  - by rewrite Hfolder.
  - auto.
  - auto.
  - intros Hops. inversion Hops as [|? ? Hop Hrest]; subst.
    rewrite (Hsame Hrest). by apply Hsame1.
  - intros H. by apply Hinv, after_op_agent_has_index.
Qed.

End Extras.

Lemma X2_witness :
  3 ≤ Re.count_letters "abc ABC" ∧
  Re.count_letters "abc ABC" ≤ Text.len "abc ABC" ∧
  (0 <? Text.len "abc ABC") = true.
Proof.
  apply X2_detection_needs_three_letters. vm_compute. reflexivity.
Defined.

Lemma X5_witness :
  out (_create_react_agent (E := Demo.externals) Demo.indexed_bot Demo.import_missing)
    = Ret true ∧
  agent (obj (_create_react_agent (E := Demo.externals) Demo.indexed_bot
                Demo.import_missing))
    = Some {| Demo.engine_top_k := 3; Demo.engine_memory_attr := Demo.no_memory |}.
Proof.
  destruct (X5_import_error_is_tolerated (E := Demo.externals) Demo.indexed_bot
              Demo.import_missing ["給与規程"; "定款"]
              {| Demo.engine_top_k := 3; Demo.engine_memory_attr := Demo.no_memory |}
              Demo.import_missing Demo.import_missing Demo.import_missing
              (Exn ImportError "cannot import name 'SimpleChatEngine'")
              Demo.import_missing eq_refl eq_refl eq_refl eq_refl eq_refl)
    as [Htolerated _].
  destruct (Htolerated eq_refl) as (Hout & Hagent & _).
  split; [exact Hout|exact Hagent].
Defined.

Lemma X6_witness :
  load_pdfs_with_react (E := Demo.externals) Demo.ready_bot Demo.no_folder =
  Run (Ret false) Demo.ready_bot Demo.no_folder
    [Ui StError "❌ フォルダが見つかりません: pdfs"].
Proof.
  destruct (X6_early_load_failure_leaves_object (E := Demo.externals) Demo.ready_bot
              Demo.no_folder) as [Hmissing _].
  exact (Hmissing eq_refl).
Defined.

Lemma X7_witness :
  ∃ japanese_response sources_info,
    out (ask_with_react (E := Demo.externals) "第一条は?" Demo.ready_bot Demo.office) =
    Ret (japanese_response +:+ Text.nl +:+ Text.nl +:+ sources_info).
Proof.
  destruct (X7_primary_answer_composition (E := Demo.externals) "第一条は?" Demo.ready_bot
              Demo.office _ "第一条は目的を定めます。" Demo.office eq_refl eq_refl)
    as (jr & si & _ & _ & Hask & _).
  exists jr, si. exact Hask.
Defined.

Lemma X8_witness :
  out (ask_with_react (E := Demo.externals) "第一条は?" Demo.ready_bot Demo.all_queries_fail)
  = Ret "❌ 検索エラー: Connection error.".
Proof.
  destruct (X8_double_failure_reports_second_error (E := Demo.externals) "第一条は?"
              Demo.ready_bot Demo.all_queries_fail _ (Exn OtherError "Connection error.")
              Demo.all_queries_fail ["給与規程"; "定款"] eq_refl eq_refl eq_refl)
    as [_ Hquery].
  destruct (Hquery {| Demo.engine_top_k := 5; Demo.engine_memory_attr := Demo.no_memory |}
              Demo.all_queries_fail (Exn OtherError "Connection error.")
              Demo.all_queries_fail eq_refl eq_refl) as [Hout _].
  exact Hout.
Defined.

Lemma X9_witness :
  index (obj (load_pdfs_with_react (E := Demo.externals) Demo.fresh_bot Demo.office))
    = Some ["給与規程"; "定款"] ∧
  ∃ engine,
    agent (obj (load_pdfs_with_react (E := Demo.externals) Demo.fresh_bot Demo.office))
      = Some engine ∧
    head (calls (log (ask_with_react (E := Demo.externals) "第一条は?"
                        (obj (load_pdfs_with_react (E := Demo.externals)
                                Demo.fresh_bot Demo.office))
                        Demo.office)))
      = Some (Query engine "第一条は?").
Proof.
  assert (Hloaded :
    out (load_pdfs_with_react (E := Demo.externals) Demo.fresh_bot Demo.office) = Ret true)
    by (vm_compute; reflexivity).
  destruct (X9_loaded_bot_queries_built_engine (E := Demo.externals) Demo.fresh_bot
              Demo.office Hloaded)
    as (names & w1 & docs & w2 & idx & w3 & engine & w4 &
        Hls & Hdocs & Hbuilt & _ & Hindex & Hagent & Hask).
  split.
  - rewrite Hindex.
    vm_compute in Hls. inversion Hls; subst names w1.
    vm_compute in Hdocs. inversion Hdocs; subst docs w2.
    vm_compute in Hbuilt. inversion Hbuilt; subst idx w3.
    reflexivity.
  - exists engine. split; [exact Hagent|apply Hask].
Defined.

Lemma X10_witness :
  out (main (E := Demo.externals) Demo.press_init
         (uninitialized_session Demo.fresh_bot []) Demo.no_credential) = Ctl Stop ∧
  obj (main (E := Demo.externals) Demo.press_init
         (uninitialized_session Demo.fresh_bot []) Demo.no_credential)
    = uninitialized_session Demo.fresh_bot [].
Proof.
  destruct (X10_missing_credential_stops_script (E := Demo.externals) Demo.press_init
              (uninitialized_session Demo.fresh_bot []) Demo.no_credential eq_refl)
    as [Hrun _].
  rewrite Hrun. split; reflexivity.
Defined.

Lemma X11_witness :
  obj (main (E := Demo.externals) (Demo.ask "第一条は?") empty_session Demo.office)
  = uninitialized_session constructed_bot [].
Proof.
  destruct (X11_first_run_constructs_chatbot (E := Demo.externals) (Demo.ask "第一条は?")
              Demo.office eq_refl) as [_ Hfirst].
  rewrite (Hfirst Demo.office eq_refl eq_refl). reflexivity.
Defined.

Lemma X12_witness :
  obj (main (E := Demo.externals) (Demo.ask "第一条は?")
         (uninitialized_session Demo.fresh_bot Demo.earlier_turns) Demo.office)
  = uninitialized_session Demo.fresh_bot Demo.earlier_turns.
Proof.
  destruct (X12_uninitialized_ignores_chat_and_clear (E := Demo.externals)
              (Demo.ask "第一条は?") Demo.fresh_bot
              (uninitialized_session Demo.fresh_bot Demo.earlier_turns) Demo.office)
    as [Hrun _]; [reflexivity|reflexivity|discriminate|reflexivity|].
  rewrite Hrun. reflexivity.
Defined.

Lemma X14_witness :
  ∃ response,
    obj (main (E := Demo.externals) (Demo.ask "第二条は?")
           (ready_session Demo.ready_bot Demo.earlier_turns) Demo.office)
    = ready_session Demo.ready_bot
        (Demo.earlier_turns ++ [Message User "第二条は?"; Message Assistant response]).
Proof.
  destruct (X14_submit_appends_two_turns (E := Demo.externals) (Demo.ask "第二条は?")
              "第二条は?" Demo.ready_bot Demo.earlier_turns Demo.office)
    as (response & _ & _ & Hobj & _); [reflexivity|reflexivity|discriminate|reflexivity|].
  exists response. exact Hobj.
Defined.

Lemma X15_witness :
  obj (main (E := Demo.externals) Demo.press_init
         (ready_session Demo.ready_bot Demo.earlier_turns) Demo.office)
  = ready_session Demo.ready_bot Demo.earlier_turns.
Proof.
  destruct (X15_idle_rerun_renders_history (E := Demo.externals) Demo.press_init
              Demo.ready_bot Demo.earlier_turns Demo.office eq_refl eq_refl eq_refl)
    as [Hrun _].
  rewrite Hrun. reflexivity.
Defined.

Lemma X16_witness :
  ∃ japanese_response,
    out (ask_with_react (E := Demo.externals) "第一条は?" Demo.ready_bot
           Demo.retriever_fails)
    = Ret (japanese_response +:+ Text.nl +:+ Text.nl +:+
           "📚 【出典情報取得エラー】" +:+ "Connection error.").
Proof.
  destruct (X16_attribution_failure_keeps_answer (E := Demo.externals) "第一条は?"
              Demo.ready_bot Demo.retriever_fails _ "第一条は目的を定めます。"
              Demo.retriever_fails eq_refl eq_refl)
    as (jr & w2 & _ & Hworld & _ & _ & Hretrieve).
  exists jr.
  assert (Hw : w2 = Demo.retriever_fails) by (rewrite <- Hworld; reflexivity).
  subst w2.
  exact (Hretrieve ["給与規程"; "定款"] 3 Demo.retriever_fails
           (Exn OtherError "Connection error.") Demo.retriever_fails
           eq_refl eq_refl eq_refl).
Defined.

Lemma X17_witness :
  ∃ response,
    out (ask_with_react (E := Demo.externals) "第二条は?" Demo.ready_bot Demo.office)
      = Ret response ∧
    log (main (E := Demo.externals) (Demo.ask "第二条は?")
           (ready_session Demo.ready_bot Demo.earlier_turns) Demo.office) =
      page_header ++ history_events Demo.earlier_turns ++
      [Ui StChatMessage "user"; Ui StMarkdown "第二条は?"; Ui StChatMessage "assistant"] ++
      log (ask_with_react (E := Demo.externals) "第二条は?" Demo.ready_bot Demo.office) ++
      Ui StMarkdown response :: language_indicator response.
Proof.
  destruct (X17_submit_page_and_language_indicator (E := Demo.externals)
              (Demo.ask "第二条は?") "第二条は?" Demo.ready_bot Demo.earlier_turns
              Demo.office)
    as (response & Hout & Hlog & _); [reflexivity|reflexivity|discriminate|reflexivity|].
  exists response. split; [exact Hout|exact Hlog].
Defined.

Lemma X18_witness :
  Ui StWrite "英語が含まれていたため日本語変換を実行しました"
    ∈ log (main (E := Demo.externals) (Demo.ask "第二条は?")
             (ready_session Demo.ready_bot Demo.earlier_turns) Demo.office) ∧
  ∀ p, Complete p ∉
         calls (log (main (E := Demo.externals) (Demo.ask "第二条は?")
                       (ready_session Demo.ready_bot Demo.earlier_turns) Demo.office)).
Proof.
  assert (Hconformant : _contains_english "第一条は目的を定めます。" = false)
    by (vm_compute; reflexivity).
  destruct (X18_indicator_judges_citation_block (E := Demo.externals)
              (Demo.ask "第二条は?") "第二条は?" Demo.ready_bot Demo.earlier_turns
              Demo.office
              {| Demo.engine_top_k := 3; Demo.engine_memory_attr := Demo.no_memory |}
              "第一条は目的を定めます。" Demo.office)
    as (sources_info & Hsources & _ & Hcalls & Hwarned & _);
    [reflexivity|reflexivity|discriminate|reflexivity|reflexivity|reflexivity
    |exact Hconformant|].
  split; [|exact Hcalls].
  apply Hwarned.
  assert (Hblock :
    out (_get_source_info (E := Demo.externals) "第二条は?" Demo.ready_bot Demo.office)
    = Ret ("📚 【参考文書・出典情報】" +:+ Text.nl +:+
           "1. kitei.pdf (ページ: 3) - 関連度: 0.873" +:+ Text.nl +:+
           "2. teikan.pdf - 関連度: 0.005" +:+ Text.nl +:+
           "3. memo.pdf")) by (vm_compute; reflexivity).
  rewrite Hblock in Hsources. inversion Hsources. vm_compute. reflexivity.
Defined.

